(** * Agent-framework samples: document generators and weather tools

    A shallow embedding of three programs of the repository:

    - [weather_utils.py]: the two weather tool functions
      ([get_real_weather], [get_real_weather_detailed]);
    - [generate_architecture_doc.py]: the markdown to docx converter;
    - [generate_presentation.py]: the slide deck generator.

    Python values are modelled as follows.  A [str] is the list of its
    Unicode code points.  Exceptions are values of an error monad.  The
    console, the file system and the HTTP transport are explicit: functions
    take them as arguments and return what they printed, wrote and requested. *)

From stdpp Require Import base list strings pretty gmap.
From Stdlib Require Import ZArith QArith Lia.

Close Scope Q_scope.

Set Warnings "-register-all".

(** ** Python strings *)

Module PyStr.

(** A [str] is a list of code points. *)
Abbreviation str := (list N).

Fixpoint bytes (s : string) : list N :=
  match s with
  | EmptyString => []
  | String a s' => Ascii.N_of_ascii a :: bytes s'
  end.

(** String literals of this file are UTF-8, as the Python sources are;
    [utf8_decode] turns their bytes into code points. *)
Fixpoint utf8_decode (b : list N) : str :=
  match b with
  | [] => []
  | b0 :: r0 =>
    if (b0 <? 128)%N then b0 :: utf8_decode r0
    else
      match r0 with
      | [] => []
      | b1 :: r1 =>
        if (b0 <? 224)%N
        then ((b0 mod 32) * 64 + b1 mod 64)%N :: utf8_decode r1
        else
          match r1 with
          | [] => []
          | b2 :: r2 =>
            if (b0 <? 240)%N
            then ((b0 mod 16) * 4096 + (b1 mod 64) * 64 + b2 mod 64)%N
                   :: utf8_decode r2
            else
              match r2 with
              | [] => []
              | b3 :: r3 =>
                ((b0 mod 8) * 262144 + (b1 mod 64) * 4096
                 + (b2 mod 64) * 64 + b3 mod 64)%N :: utf8_decode r3
              end
          end
      end
  end.

(** [py "text"] is the Python literal ["text"]. *)
Definition py (s : string) : str := utf8_decode (bytes s).

Definition LF : N := 10.
Definition NL : str := [LF].
Definition CR : N := 13.
Definition BACKTICK : N := 96.
Definition HASH : N := 35.
Definition PIPE : N := 124.
Definition DASH : N := 45.
Definition COLON : N := 58.
Definition DQUOTE : N := 34.
Definition SLASH : N := 47.

(** [str(n)] of an [int]. *)
Definition str_of_Z (z : Z) : str := py (pretty z).

(** [str.isspace] of one character, which is also the class [\s] of a
    [str] pattern of the [re] module. *)
Definition isspace (c : N) : bool :=
  ((9 <=? c) && (c <=? 13) || (28 <=? c) && (c <=? 32)
   || (c =? 133) || (c =? 160) || (c =? 5760)
   || (8192 <=? c) && (c <=? 8202)
   || (c =? 8232) || (c =? 8233) || (c =? 8239) || (c =? 8287)
   || (c =? 12288))%N.

(** [s.lstrip()] *)
Fixpoint lstrip (s : str) : str :=
  match s with
  | [] => []
  | c :: s' => if isspace c then lstrip s' else s
  end.

(** [s.rstrip()] *)
Fixpoint rstrip (s : str) : str :=
  match s with
  | [] => []
  | c :: s' =>
    match rstrip s' with
    | [] => if isspace c then [] else [c]
    | r => c :: r
    end
  end.

(** [s.strip()] *)
Definition strip (s : str) : str := lstrip (rstrip s).

(** [s.split(sep)] for a one-character separator. *)
Fixpoint split (sep : N) (s : str) : list str :=
  match s with
  | [] => [[]]
  | c :: s' =>
    if (c =? sep)%N then [] :: split sep s'
    else
      match split sep s' with
      | [] => [[c]]
      | h :: t => (c :: h) :: t
      end
  end.

(** [sep.join(l)] *)
Fixpoint join (sep : str) (l : list str) : str :=
  match l with
  | [] => []
  | [x] => x
  | x :: l' => x ++ sep ++ join sep l'
  end.

(** The slice [l[1:-1]]. *)
Definition slice_1_m1 {A} (l : list A) : list A := tail (removelast l).

(** The longest prefix of characters satisfying [p], and the rest. *)
Fixpoint span (p : N → bool) (s : str) : str * str :=
  match s with
  | [] => ([], [])
  | c :: s' =>
    if p c then let '(a, b) := span p s' in (c :: a, b) else ([], s)
  end.

(** The number of lines of a text: one more than its line feeds. *)
Definition line_count (s : str) : nat := length (split LF s).

End PyStr.

Import PyStr.

(** ** Python exceptions *)

Module PyErr.

Inductive exn_class :=
| ClientError          (* aiohttp.ClientError and its subclasses *)
| KeyError
| IndexError
| TypeError
| AttributeError
| ValueError           (* and its subclasses, such as UnicodeError *)
| OtherException       (* any other subclass of Exception *)
| SystemExit
| OtherBaseException.  (* KeyboardInterrupt, CancelledError, ... *)

(** [isinstance(e, aiohttp.ClientError)] *)
Definition is_client_error (c : exn_class) : bool :=
  match c with ClientError => true | _ => false end.

(** [isinstance(e, Exception)] *)
Definition is_exception (c : exn_class) : bool :=
  match c with SystemExit | OtherBaseException => false | _ => true end.

(** An exception object: its class and [str(e)]. *)
Record exn := Exn { exn_cls : exn_class; exn_str : str }.

(** A computation either returns a value or raises. *)
Inductive result (A : Type) :=
| Ok (a : A)
| Raise (e : exn).
Arguments Ok {A} a.
Arguments Raise {A} e.

Definition bind {A B} (r : result A) (f : A → result B) : result B :=
  match r with
  | Ok a => f a
  | Raise e => Raise e
  end.

Notation "'let!' x := e 'in' k" := (bind e (λ x, k))
  (at level 10, x name, e at level 200, k at level 200,
   format "'[v' 'let!'  x  :=  e  'in' '/' k ']'").
Notation "e >>= f" := (bind e f) (at level 50, left associativity).

End PyErr.

Import PyErr.

(** ** Files and the console *)

Module Os.

(** A file holds text, or a document of type [D] written by a [save]. *)
Inductive file (D : Type) :=
| TextFile (text : str)
| SavedFile (d : D).
Arguments TextFile {D} text.
Arguments SavedFile {D} d.

Record world (D : Type) := {
  files : gmap str (file D);
  stdout : list str
}.
Arguments files {D} w.
Arguments stdout {D} w.

(** [print(line)] *)
Definition print {D} (w : world D) (line : str) : world D :=
  {| files := files w; stdout := stdout w ++ [line] |}.

Definition write_file {D} (w : world D) (path : str) (d : D) : world D :=
  {| files := <[path := SavedFile d]> (files w); stdout := stdout w |}.

(** The status a script ends with: 0 when it runs to its end, 1 when an
    exception leaves it; this covers [SystemExit] raised with a message,
    which the interpreter prints on the error stream. *)
Definition exit_status {A} (r : result A) : Z :=
  match r with
  | Ok _ => 0%Z
  | Raise _ => 1%Z
  end.

Definition stderr_message {A} (r : result A) : option str :=
  match r with
  | Ok _ => None
  | Raise e => Some (exn_str e)
  end.

End Os.

Import Os.

(** ** weather_utils.py *)

Module Weather.

(** A value decoded by [response.json()].  A [float] is carried by its
    [repr] text; a [dict] keeps its insertion order, which [str] shows. *)
Inductive json :=
| JNull
| JBool (b : bool)
| JInt (z : Z)
| JFloat (repr : str)
| JStr (s : str)
| JList (l : list json)
| JDict (d : list (str * json)).

Definition type_name (v : json) : str :=
  match v with
  | JNull => py "NoneType"
  | JBool _ => py "bool"
  | JInt _ => py "int"
  | JFloat _ => py "float"
  | JStr _ => py "str"
  | JList _ => py "list"
  | JDict _ => py "dict"
  end.

Fixpoint dict_lookup (key : str) (d : list (str * json)) : option json :=
  match d with
  | [] => None
  | (k, v) :: d' => if decide (k = key) then Some v else dict_lookup key d'
  end.

Record request := { url : str; params : list (str * str) }.

(** What the caller sees of a response: its status and the outcome of
    [await response.json()]. *)
Record response := { status : Z; body_json : result json }.

Section Builtins.

(** Two builtins of Python that depend on the Unicode database:
    [repr] of a [str], and [str.capitalize]. *)
Variable repr_str : str → str.
Variable capitalize : str → str.

Fixpoint py_repr (v : json) : str :=
  match v with
  | JNull => py "None"
  | JBool true => py "True"
  | JBool false => py "False"
  | JInt z => str_of_Z z
  | JFloat r => r
  | JStr s => repr_str s
  | JList l => py "[" ++ join (py ", ") (map py_repr l) ++ py "]"
  | JDict d =>
    py "{"
    ++ join (py ", ")
         (map (λ '(k, x), repr_str k ++ py ": " ++ py_repr x) d)
    ++ py "}"
  end.

(** [str(v)], which is what an f-string field [{v}] renders. *)
Definition py_str (v : json) : str :=
  match v with
  | JStr s => s
  | _ => py_repr v
  end.

Definition not_subscriptable (o : json) : exn :=
  Exn TypeError (py "'" ++ type_name o ++ py "' object is not subscriptable").

Definition no_attribute (o : json) (name : str) : exn :=
  Exn AttributeError
      (py "'" ++ type_name o ++ py "' object has no attribute '"
       ++ name ++ py "'").

(** [o[key]] for a [str] key (messages as CPython 3.11 and later
    print them). *)
Definition getitem (o : json) (key : str) : result json :=
  match o with
  | JDict d =>
    match dict_lookup key d with
    | Some v => Ok v
    | None => Raise (Exn KeyError (repr_str key))
    end
  | JList _ =>
    Raise (Exn TypeError
               (py "list indices must be integers or slices, not str"))
  | JStr _ =>
    Raise (Exn TypeError
               (py "string indices must be integers, not 'str'"))
  | _ => Raise (not_subscriptable o)
  end.

(** [o[0]]; the keys of a decoded object are strings, so [0] is
    never one of them. *)
Definition getitem0 (o : json) : result json :=
  match o with
  | JList (v :: _) => Ok v
  | JList [] => Raise (Exn IndexError (py "list index out of range"))
  | JStr (c :: _) => Ok (JStr [c])
  | JStr [] => Raise (Exn IndexError (py "string index out of range"))
  | JDict _ => Raise (Exn KeyError (py "0"))
  | _ => Raise (not_subscriptable o)
  end.

(** [o.get(key, default)] *)
Definition get_method (o : json) (key : str) (default_value : json)
  : result json :=
  match o with
  | JDict d => Ok (default default_value (dict_lookup key d))
  | _ => Raise (no_attribute o (py "get"))
  end.

(** [o.capitalize()] *)
Definition capitalize_method (o : json) : result str :=
  match o with
  | JStr s => Ok (capitalize s)
  | _ => Raise (no_attribute o (py "capitalize"))
  end.

Definition API_KEY_VAR : str := py "OPENWEATHERMAP_API_KEY".

(** The request of [session.get(base_url, params=params)], with
    [params = {"q": location, "appid": api_key, "units": "metric"}]. *)
Definition weather_request (location api_key : str) : request :=
  let base_url := py "https://api.openweathermap.org/data/2.5/weather" in
  {| url := base_url;
     params := [(py "q", location); (py "appid", api_key);
                (py "units", py "metric")] |}.

(** The two [except] clauses that close the [try] of both functions
    (lines 79-82 and 154-157): [aiohttp.ClientError] first, then
    [Exception]; an exception of neither class goes on to the caller. *)
Definition except_clauses (attempt : result str) : result str :=
  match attempt with
  | Ok text => Ok text
  | Raise e =>
    if is_client_error (exn_cls e)
    then Ok (py "Error: Network error occurred: " ++ exn_str e)
    else if is_exception (exn_cls e)
    then Ok (py "Error: Unexpected error occurred: " ++ exn_str e)
    else Raise e
  end.

(** The branch [response.status == 200] of [get_real_weather] (lines
    59-72), given the outcome of [await response.json()]. *)
Definition basic_report (location : str) (body : result json) : result str :=
  let! data := body in
  let! weather_desc := getitem data (py "weather") >>= getitem0
                 >>= (λ w, getitem w (py "description")) in
  let! temp := getitem data (py "main") >>= (λ m, getitem m (py "temp")) in
  let! feels_like := getitem data (py "main") >>= (λ m, getitem m (py "feels_like")) in
  let! humidity := getitem data (py "main") >>= (λ m, getitem m (py "humidity")) in
  let! wind_speed := getitem data (py "wind") >>= (λ w, getitem w (py "speed")) in
  Ok (py "Weather in " ++ location ++ py ":" ++ NL
      ++ py "- Conditions: " ++ py_str weather_desc ++ NL
      ++ py "- Temperature: " ++ py_str temp
      ++ py "°C (feels like " ++ py_str feels_like ++ py "°C)" ++ NL
      ++ py "- Humidity: " ++ py_str humidity ++ py "%" ++ NL
      ++ py "- Wind Speed: " ++ py_str wind_speed ++ py " m/s").

(** The chain [if response.status == 200 ... elif ... 401 ... elif ... 404
    ... else], which both functions write with the same three error texts
    (lines 58-78 and 113-153); [report] is the branch of status 200. *)
Definition status_branches (location : str) (resp : response)
    (report : str → result json → result str) : result str :=
  if (status resp =? 200)%Z then report location (body_json resp)
  else if (status resp =? 401)%Z
  then Ok (py "Error: Invalid API key. Please check your OPENWEATHERMAP_API_KEY.")
  else if (status resp =? 404)%Z
  then Ok (py "Error: City '" ++ location
           ++ py "' not found. Try using format like 'Seattle' or 'London,UK'.")
  else Ok (py "Error: Could not fetch weather for " ++ location
           ++ py " (Status: " ++ str_of_Z (status resp) ++ py ")").

(** [get_real_weather(location)], run in an environment [environ] against
    a transport [http_get]; the second component lists the requests sent. *)
Definition get_real_weather (environ : gmap str str)
    (http_get : request → result response) (location : str)
    : result str * list request :=
  match environ !! API_KEY_VAR with
  | None | Some [] =>
    (Ok (py "Error: OPENWEATHERMAP_API_KEY not set in environment variables."
         ++ NL
         ++ py "Please sign up at https://openweathermap.org/api and add your API key to .env file."),
     [])
  | Some api_key =>
    let req := weather_request location api_key in
    (except_clauses
       (let! resp := http_get req in
        status_branches location resp basic_report),
     [req])
  end.

(** The branch [response.status == 200] of [get_real_weather_detailed]
    (lines 114-147).  The description is capitalised when the text is
    formatted, after every field is read. *)
Definition detailed_report (location : str) (body : result json)
    : result str :=
  let! data := body in
  let! weather_desc := getitem data (py "weather") >>= getitem0
                 >>= (λ w, getitem w (py "description")) in
  let! temp := getitem data (py "main") >>= (λ m, getitem m (py "temp")) in
  let! feels_like := getitem data (py "main") >>= (λ m, getitem m (py "feels_like")) in
  let! temp_min := getitem data (py "main") >>= (λ m, getitem m (py "temp_min")) in
  let! temp_max := getitem data (py "main") >>= (λ m, getitem m (py "temp_max")) in
  let! pressure := getitem data (py "main") >>= (λ m, getitem m (py "pressure")) in
  let! humidity := getitem data (py "main") >>= (λ m, getitem m (py "humidity")) in
  let! wind_speed := getitem data (py "wind") >>= (λ w, getitem w (py "speed")) in
  let! wind_deg := getitem data (py "wind")
             >>= (λ w, get_method w (py "deg") (JStr (py "N/A"))) in
  let! cloudiness := getitem data (py "clouds") >>= (λ c, getitem c (py "all")) in
  let! visibility := get_method data (py "visibility") (JStr (py "N/A")) in
  let! capitalized := capitalize_method weather_desc in
  Ok (py "Detailed Weather Report for " ++ location ++ py ":" ++ NL
      ++ py "━━━━━━━━━━━━━━━━━━━━━━━━━━━━━━━━" ++ NL
      ++ py "Conditions: " ++ capitalized ++ NL
      ++ NL
      ++ py "Temperature:" ++ NL
      ++ py "  • Current: " ++ py_str temp
      ++ py "°C (feels like " ++ py_str feels_like ++ py "°C)" ++ NL
      ++ py "  • Min/Max: " ++ py_str temp_min ++ py "°C / "
      ++ py_str temp_max ++ py "°C" ++ NL
      ++ NL
      ++ py "Atmospheric Conditions:" ++ NL
      ++ py "  • Pressure: " ++ py_str pressure ++ py " hPa" ++ NL
      ++ py "  • Humidity: " ++ py_str humidity ++ py "%" ++ NL
      ++ py "  • Cloudiness: " ++ py_str cloudiness ++ py "%" ++ NL
      ++ py "  • Visibility: " ++ py_str visibility ++ py " meters" ++ NL
      ++ NL
      ++ py "Wind:" ++ NL
      ++ py "  • Speed: " ++ py_str wind_speed ++ py " m/s" ++ NL
      ++ py "  • Direction: " ++ py_str wind_deg ++ py "°").

(** [get_real_weather_detailed(location)] *)
Definition get_real_weather_detailed (environ : gmap str str)
    (http_get : request → result response) (location : str)
    : result str * list request :=
  match environ !! API_KEY_VAR with
  | None | Some [] =>
    (Ok (py "Error: OPENWEATHERMAP_API_KEY not set in environment variables."
         ++ NL
         ++ py "Please sign up at https://openweathermap.org/api and add your API key to .env file."),
     [])
  | Some api_key =>
    let req := weather_request location api_key in
    (except_clauses
       (let! resp := http_get req in
        status_branches location resp detailed_report),
     [req])
  end.

End Builtins.
End Weather.

(** ** Lengths

    python-docx and python-pptx measure in English Metric Units. *)

Module Units.

(** [Pt(points)] *)
Definition Pt (points : Z) : Z := (points * 12700)%Z.

(** The quotient [a / b] of two positive integers, rounded to the nearest
    integer, a tie going to the even one. *)
Definition round_half_even (a b : Z) : Z :=
  let q := (a / b)%Z in
  let r := (a mod b)%Z in
  if (2 * r <? b)%Z then q
  else if (b <? 2 * r)%Z then (q + 1)%Z
  else if Z.even q then q else (q + 1)%Z.

(** The [float] that Python computes with in place of the number [x]: the
    nearest number with a significand of 53 bits (normal range). *)
Definition binary64 (x : Q) : Q :=
  let n := Z.abs (Qnum x) in
  let d := Z.pos (Qden x) in
  if (n =? 0)%Z then inject_Z 0
  else
    let scaled (e : Z) :=
      if (0 <=? e)%Z then (n, d * 2 ^ e)%Z else (n * 2 ^ (- e), d)%Z in
    let e0 := (Z.log2 n - Z.log2 d - 52)%Z in
    let e := if (fst (scaled e0) <? 2 ^ 52 * snd (scaled e0))%Z
             then (e0 - 1)%Z else e0 in
    let m := (Z.sgn (Qnum x)
              * round_half_even (fst (scaled e)) (snd (scaled e)))%Z in
    if (0 <=? e)%Z then inject_Z (m * 2 ^ e)
    else Qmake m (Z.to_pos (2 ^ (- e))).

(** [Inches(x)]: [int(x * 914400)], a product of floats, which [int]
    truncates. *)
Definition Inches (x : Q) : Z :=
  let emu := binary64 (Qmult (binary64 x) (inject_Z 914400)) in
  Z.quot (Qnum emu) (Z.pos (Qden emu)).

End Units.

Import Units.

(** ** generate_architecture_doc.py *)

Module MdToDocx.

(** *** The four patterns

    [re.match] anchors at the start; [.] matches every character but a line
    feed; [$] matches at the end of the string and before a line feed that
    ends it. *)

(** What a final group [.*] followed by [$] captures, if it matches. *)
Definition dot_star_end (s : str) : option str :=
  let '(a, b) := span (λ c, negb (c =? LF)%N) s in
  match b with
  | [] | [_] => Some a
  | _ => None
  end.

Definition strip_final_lf (s : str) : str :=
  match last s with
  | Some c => if (c =? LF)%N then removelast s else s
  | None => s
  end.

(** [CODE_FENCE.match(line)], giving [group(1)].  Pattern: three backticks,
    then a group [.*], then [$]. *)
Definition CODE_FENCE_match (line : str) : option str :=
  match line with
  | a :: b :: c :: rest =>
    if ((a =? BACKTICK) && (b =? BACKTICK) && (c =? BACKTICK))%N
    then dot_star_end rest
    else None
  | _ => None
  end.

(** [HEADING.match(line)], giving [(group(1), group(2))].  Pattern: one to
    six [#], then [\s+], then a group [.*], then [$]. *)
Definition HEADING_match (line : str) : option (str * str) :=
  let '(hashes, rest) := span (λ c, (c =? HASH)%N) line in
  if bool_decide (1 ≤ length hashes ≤ 6) then
    let '(spaces, text) := span isspace rest in
    match spaces with
    | [] => None
    | _ :: _ =>
      match dot_star_end text with
      | Some g2 => Some (hashes, g2)
      | None => None
      end
    end
  else None.

(** [TABLE_ROW.match(line)] as a truth value.  Pattern: a pipe, [.*], a
    pipe, [$]. *)
Definition TABLE_ROW_match (line : str) : bool :=
  match line with
  | c :: t =>
    let t' := strip_final_lf t in
    (c =? PIPE)%N && bool_decide (last t' = Some PIPE)
    && forallb (λ c, negb (c =? LF)%N) t'
  | [] => false
  end.

(** The alignment pattern of the table branch, as a truth value: an
    optional colon, three dashes or more, an optional colon, [$]. *)
Definition ALIGNMENT_match (p : str) : bool :=
  let p1 := strip_final_lf p in
  let p2 := match p1 with
            | c :: r => if (c =? COLON)%N then r else p1
            | [] => p1
            end in
  let '(dashes, r) := span (λ c, (c =? DASH)%N) p2 in
  bool_decide (3 ≤ length dashes)
  && match r with
     | [] => true
     | [c] => (c =? COLON)%N
     | _ => false
     end.

(** *** The document *)

Record run := {
  run_text : str;
  run_font_name : option str;
  run_font_size : option Z;
  run_bold : option bool
}.

Definition plain_run (text : str) : run :=
  {| run_text := text; run_font_name := None; run_font_size := None;
     run_bold := None |}.

(** The run of an inline code span: Courier New, 10pt, not bold. *)
Definition code_run (text : str) : run :=
  {| run_text := text; run_font_name := Some (py "Courier New");
     run_font_size := Some (Pt 10); run_bold := Some false |}.

Inductive block :=
| Heading (text : str) (level : Z)
| Paragraph (style : option str) (runs : list run)
| Table (cols : nat) (rows : list (list str)).

Record style := {
  style_name : str;
  style_font_name : option str;
  style_font_size : option Z;
  style_east_asia : option str;
  style_bold : option bool
}.

(** A document: its styles and the blocks of its body.  The heading styles
    are those of the template of python-docx, which every document that
    [Document()] opens has. *)
Record Document := { styles : list style; body : list block }.

(** The document with one block more at the end of its body: what a call
    that adds a block leaves when it returns. *)
Definition add_block (doc : Document) (b : block) : Document :=
  {| styles := styles doc; body := body doc ++ [b] |}.

Definition has_style (name : str) (doc : Document) : bool :=
  bool_decide (name ∈ style_name <$> styles doc).

Definition add_style (doc : Document) (s : style) : Document :=
  {| styles := styles doc ++ [s]; body := body doc |}.

Definition ensure_mono_style (doc : Document) : Document :=
  let doc :=
    if negb (has_style (py "CodeBlock") doc)
    then add_style doc
           {| style_name := py "CodeBlock";
              style_font_name := Some (py "Courier New");
              style_font_size := Some (Pt 9);
              style_east_asia := Some (py "Courier New");
              style_bold := None |}
    else doc in
  if negb (has_style (py "TableHeader") doc)
  then add_style doc
         {| style_name := py "TableHeader"; style_font_name := None;
            style_font_size := None; style_east_asia := None;
            style_bold := Some true |}
  else doc.

(** *** Text that python-docx stores

    The text of a run, of a heading or of a table cell ends in the XML of
    the document.  python-docx cuts it at tabs, line feeds and carriage
    returns, which become elements of their own, and hands each piece
    between them to lxml as the text of an element.  lxml encodes the piece
    as UTF-8, which fails on a lone surrogate, and then refuses a piece
    that holds a character XML 1.0 has no place for: a control character,
    [U+FFFE] or [U+FFFF].  Both failures are a [ValueError]; nothing in the
    script catches it. *)

Definition separator (c : N) : bool :=
  ((c =? 9) || (c =? LF) || (c =? CR))%N.

Definition surrogate (c : N) : bool :=
  ((55296 <=? c) && (c <=? 57343))%N.

(** The characters a text may hold without a failure. *)
Definition xml_char (c : N) : bool :=
  separator c
  || ((32 <=? c)%N && negb (surrogate c)
      && negb (c =? 65534)%N && negb (c =? 65535)%N).

Definition xml_compatible (text : str) : bool := forallb xml_char text.

(** The pieces of a text between tabs, line feeds and carriage returns. *)
Fixpoint pieces (text : str) : list str :=
  match text with
  | [] => [[]]
  | c :: text' =>
    if separator c then [] :: pieces text'
    else
      match pieces text' with
      | [] => [[c]]
      | p :: ps => (c :: p) :: ps
      end
  end.

Definition hex_digit (d : N) : N :=
  if (d <? 10)%N then (48 + d)%N else (87 + d)%N.

(** [c] as four hexadecimal digits, in lower case. *)
Definition hex4 (c : N) : str :=
  [ hex_digit (c / 4096 mod 16); hex_digit (c / 256 mod 16);
    hex_digit (c / 16 mod 16); hex_digit (c mod 16) ]%N.

(** [str(e)] of the [UnicodeEncodeError] of [piece.encode("utf8")], if it
    raises: the error names the first surrogates of the piece. *)
Definition encode_error (piece : str) : option str :=
  let '(before, rest) := span (λ c, negb (surrogate c)) piece in
  let start := Z.of_nat (length before) in
  match (span surrogate rest).1 with
  | [] => None
  | [c] =>
    Some (py "'utf-8' codec can't encode character '\u" ++ hex4 c
          ++ py "' in position " ++ str_of_Z start
          ++ py ": surrogates not allowed")
  | (_ :: _ :: _) as found =>
    Some (py "'utf-8' codec can't encode characters in position "
          ++ str_of_Z start ++ py "-"
          ++ str_of_Z (start + Z.of_nat (length found) - 1)
          ++ py ": surrogates not allowed")
  end.

Definition XML_INCOMPATIBLE : str :=
  py "All strings must be XML compatible: Unicode or ASCII, no NULL bytes or control characters".

Definition piece_error (piece : str) : option exn :=
  match encode_error piece with
  | Some message => Some (Exn ValueError message)
  | None =>
    if xml_compatible piece then None
    else Some (Exn ValueError XML_INCOMPATIBLE)
  end.

Fixpoint first_error (ps : list str) : option exn :=
  match ps with
  | [] => None
  | p :: ps' =>
    match piece_error p with
    | Some e => Some e
    | None => first_error ps'
    end
  end.

(** Storing [text] as the text of a run or of a cell. *)
Definition store_text (text : str) : result unit :=
  match first_error (pieces text) with
  | Some e => Raise e
  | None => Ok ()
  end.

(** [para.add_run(text)] for each run of a paragraph, in order. *)
Fixpoint add_runs (runs : list run) : result unit :=
  match runs with
  | [] => Ok ()
  | r :: runs' => let! _ := store_text (run_text r) in add_runs runs'
  end.

(** *** The blocks *)

(** [doc.add_heading] accepts the levels 0 to 9. *)
Definition add_heading (doc : Document) (text : str) (level : Z)
    : result Document :=
  let level := if (level <=? 4)%Z then level else 4%Z in
  if ((0 <=? level) && (level <=? 9))%Z then
    let! _ := store_text text in
    Ok (add_block doc (Heading text level))
  else
    Raise (Exn ValueError
             (py "level must be in range 0-9, got " ++ str_of_Z level)).

(** A code block is a paragraph of style [CodeBlock] with one run. *)
Definition code_block (content : str) : block :=
  Paragraph (Some (py "CodeBlock")) [plain_run content].

(** [doc.add_paragraph(style="CodeBlock")] looks the style up by its name
    and raises a [KeyError] when the document has none of that name. *)
Definition add_code_block (doc : Document) (code_lines : list str)
    (language : option str) : result Document :=
  if has_style (py "CodeBlock") doc then
    let content := join NL code_lines in
    let! _ := store_text content in
    Ok (add_block doc (code_block content))
  else
    Raise (Exn KeyError
             ([DQUOTE] ++ py "no style with name 'CodeBlock'" ++ [DQUOTE])).

(** [para = doc.add_paragraph()] and the runs added to it. *)
Definition add_paragraph (doc : Document) (runs : list run)
    : result Document :=
  let! _ := add_runs runs in
  Ok (add_block doc (Paragraph None runs)).

(** [for i, col in enumerate(row): cells[i].text = col.strip()], from
    index [i] on; [cells] is the tuple of cells of one table row. *)
Fixpoint assign_cells (i : nat) (row : list str) (cells : list str)
    : result (list str) :=
  match row with
  | [] => Ok cells
  | col :: row' =>
    if decide (i < length cells)
    then
      let! _ := store_text (strip col) in
      assign_cells (S i) row' (<[i := strip col]> cells)
    else Raise (Exn IndexError (py "tuple index out of range"))
  end.

(** [table.add_row().cells] then the loop over the row. *)
Definition fill_row (cols : nat) (row : list str) : result (list str) :=
  assign_cells 0 row (replicate cols []).

Fixpoint fill_rows (cols : nat) (rows : list (list str))
    : result (list (list str)) :=
  match rows with
  | [] => Ok []
  | r :: rows' =>
    let! cells := fill_row cols r in
    let! rest := fill_rows cols rows' in
    Ok (cells :: rest)
  end.

Definition add_table (doc : Document) (rows : list (list str))
    : result Document :=
  match rows with
  | [] => Ok doc
  | header :: body_rows =>
    let cols := length header in
    let! hdr := fill_row cols header in
    let! body_cells := fill_rows cols body_rows in
    Ok (add_block doc (Table cols (hdr :: body_cells)))
  end.

(** The runs of a regular paragraph: the matches of
    [INLINE_CODE.finditer(line)] (a backtick, one character or more other
    than a backtick, a backtick) become code runs, the text between them
    plain runs.  [pending] is the plain text read since the last match. *)
Definition plain_runs (pending : str) : list run :=
  match pending with
  | [] => []
  | _ => [plain_run pending]
  end.

Fixpoint scan_inline (fuel : nat) (pending s : str) : list run :=
  match fuel, s with
  | S fuel', c :: rest =>
    if (c =? BACKTICK)%N then
      match span (λ x, negb (x =? BACKTICK)%N) rest with
      | ((_ :: _) as code, _ :: after) =>
        plain_runs pending ++ code_run code :: scan_inline fuel' [] after
      | _ => scan_inline fuel' (pending ++ [c]) rest
      end
    else scan_inline fuel' (pending ++ [c]) rest
  | _, _ => plain_runs pending
  end.

Definition inline_runs (line : str) : list run :=
  scan_inline (length line) [] line.

(** *** The line loop *)

Record state := {
  doc : Document;
  in_code : bool;
  code_lang : option str;
  code_buffer : list str;
  table_buffer : list (list str)
}.

Definition with_doc (st : state) (d : Document) : state :=
  {| doc := d; in_code := in_code st; code_lang := code_lang st;
     code_buffer := code_buffer st; table_buffer := table_buffer st |}.

Definition flush_code (st : state) : result state :=
  match code_buffer st with
  | [] => Ok st
  | _ :: _ =>
    let! d := add_code_block (doc st) (code_buffer st) (code_lang st) in
    Ok {| doc := d; in_code := in_code st; code_lang := None;
          code_buffer := []; table_buffer := table_buffer st |}
  end.

Definition flush_table (st : state) : result state :=
  match table_buffer st with
  | [] => Ok st
  | _ :: _ =>
    let! d := add_table (doc st) (table_buffer st) in
    Ok {| doc := d; in_code := in_code st; code_lang := code_lang st;
          code_buffer := code_buffer st; table_buffer := [] |}
  end.

(** One turn of [for raw_line in iter_lines(MD_FILE)]. *)
Definition step (st : state) (raw_line : str) : result state :=
  let line := rstrip raw_line in
  match CODE_FENCE_match line with
  | Some tag =>
    if in_code st then
      let! st := flush_code st in
      Ok {| doc := doc st; in_code := false; code_lang := code_lang st;
            code_buffer := code_buffer st; table_buffer := table_buffer st |}
    else
      Ok {| doc := doc st; in_code := true;
            code_lang := match strip tag with [] => None | t => Some t end;
            code_buffer := code_buffer st; table_buffer := table_buffer st |}
  | None =>
    if in_code st then
      Ok {| doc := doc st; in_code := in_code st; code_lang := code_lang st;
            code_buffer := code_buffer st ++ [line];
            table_buffer := table_buffer st |}
    else
      match strip line with
      | [] =>
        let! st := flush_table st in
        Ok (with_doc st (add_block (doc st) (Paragraph None [])))
      | _ :: _ =>
        match HEADING_match line with
        | Some (marks, title) =>
          let! st := flush_table st in
          let level := Z.of_nat (length marks) in
          let text := strip title in
          let! d := add_heading (doc st) text level in
          Ok (with_doc st d)
        | None =>
          if TABLE_ROW_match line then
            let parts := slice_1_m1 (strip <$> split PIPE line) in
            if forallb ALIGNMENT_match parts then Ok st
            else
              Ok {| doc := doc st; in_code := in_code st;
                    code_lang := code_lang st; code_buffer := code_buffer st;
                    table_buffer := table_buffer st ++ [parts] |}
          else
            let! st := flush_table st in
            let! d := add_paragraph (doc st) (inline_runs line) in
            Ok (with_doc st d)
        end
      end
  end.

Fixpoint run_lines (st : state) (lines : list str) : result state :=
  match lines with
  | [] => Ok st
  | l :: lines' => let! st := step st l in run_lines st lines'
  end.

Definition initial_state (d : Document) : state :=
  {| doc := d; in_code := false; code_lang := None; code_buffer := [];
     table_buffer := [] |}.

(** The loop and the two trailing flushes: the document that is saved. *)
Definition convert_lines (d : Document) (lines : list str) : result Document :=
  let! st := run_lines (initial_state d) lines in
  let! st := flush_code st in
  let! st := flush_table st in
  Ok (doc st).

(** *** The script *)

(** Text mode reading: [\r\n] and [\r] become [\n]. *)
Fixpoint translate_newlines (s : str) : str :=
  match s with
  | [] => []
  | c :: s' =>
    if (c =? CR)%N then
      LF :: translate_newlines
              match s' with
              | d :: s'' => if (d =? LF)%N then s'' else s'
              | [] => s'
              end
    else c :: translate_newlines s'
  end.

(** [iter_lines(path)] on the text of the file: its lines without their
    line feed. *)
Definition iter_lines (text : str) : list str :=
  let segments := split LF (translate_newlines text) in
  match last segments with
  | Some [] => removelast segments
  | _ => segments
  end.

(** [ROOT / name], for the resolved directory [ROOT]. *)
Definition joinpath (root name : str) : str :=
  if bool_decide (last root = Some SLASH) then root ++ name
  else root ++ [SLASH] ++ name.

Definition MD_FILE (ROOT : str) : str :=
  joinpath ROOT (py "architecture_components.md").

Definition DOCX_FILE (ROOT : str) : str :=
  joinpath ROOT (py "architecture_components.docx").

Section Script.

(** The styles of the template that [Document()] opens, and the size in
    bytes of a saved document: both belong to python-docx. *)
Variable template_styles : list style.
Variable st_size : Document → Z.

Definition new_Document : Document :=
  {| styles := template_styles; body := [] |}.

(** Reading the markdown file as UTF-8 text; a saved document is not text
    (the message of the decoding error depends on its bytes and is left
    empty). *)
Definition read_text (f : file Document) : result str :=
  match f with
  | TextFile text => Ok text
  | SavedFile _ => Raise (Exn ValueError [])
  end.

(** [convert_md_to_docx()], run in directory [cwd] from a script that
    lives in [ROOT]. *)
Definition convert_md_to_docx (cwd ROOT : str) (w : world Document)
    : result unit * world Document :=
  let w := print w (py "[debug] Working directory: " ++ cwd) in
  let w := print w (py "[debug] Expected markdown path: " ++ MD_FILE ROOT) in
  match files w !! MD_FILE ROOT with
  | None =>
    let w := print w (py "[error] Markdown source missing") in
    (Raise (Exn SystemExit (py "Markdown file not found: " ++ MD_FILE ROOT)),
     w)
  | Some f =>
    let doc := ensure_mono_style new_Document in
    match (let! text := read_text f in convert_lines doc (iter_lines text)) with
    | Raise e => (Raise e, w)
    | Ok doc =>
      let w := write_file w (DOCX_FILE ROOT) doc in
      let w := print w (py "Generated architecture_components.docx ("
                        ++ str_of_Z (st_size doc) ++ py " bytes)") in
      (Ok (), w)
    end
  end.

End Script.

End MdToDocx.

(** ** generate_presentation.py *)

Module Deck.

Record RGBColor := { red : Z; green : Z; blue : Z }.

Record font := {
  font_name : option str;
  font_size : option Z;
  font_bold : option bool;
  font_color : option RGBColor
}.

Record paragraph := {
  par_text : str;
  par_level : option Z;
  par_font : font;
  par_space_after : option Z
}.

Definition plain_font : font :=
  {| font_name := None; font_size := None; font_bold := None;
     font_color := None |}.

Definition new_paragraph (text : str) : paragraph :=
  {| par_text := text; par_level := None; par_font := plain_font;
     par_space_after := None |}.

(** A text frame is the list of its paragraphs. *)
Abbreviation text_frame := (list paragraph).

(** [shape.text = text] and [text_frame.text = text]: one paragraph for
    each line of the text. *)
Definition set_text (text : str) : text_frame :=
  new_paragraph <$> split LF text.

(** [text_frame.clear()] leaves one empty paragraph. *)
Definition cleared : text_frame := [new_paragraph []].

(** An update of [frame.paragraphs[0]]. *)
Definition on_first (f : paragraph → paragraph) (frame : text_frame)
    : text_frame :=
  match frame with
  | p :: rest => f p :: rest
  | [] => []
  end.

Definition with_font (f : font → font) (p : paragraph) : paragraph :=
  {| par_text := par_text p; par_level := par_level p;
     par_font := f (par_font p); par_space_after := par_space_after p |}.

Definition set_size (v : Z) (f : font) : font :=
  {| font_name := font_name f; font_size := Some v;
     font_bold := font_bold f; font_color := font_color f |}.

Definition set_bold (v : bool) (f : font) : font :=
  {| font_name := font_name f; font_size := font_size f;
     font_bold := Some v; font_color := font_color f |}.

Definition set_color (v : RGBColor) (f : font) : font :=
  {| font_name := font_name f; font_size := font_size f;
     font_bold := font_bold f; font_color := Some v |}.

Definition set_name (v : str) (f : font) : font :=
  {| font_name := Some v; font_size := font_size f;
     font_bold := font_bold f; font_color := font_color f |}.

Record textbox := {
  box_left : Z;
  box_top : Z;
  box_width : Z;
  box_height : Z;
  box_frame : text_frame;
  box_word_wrap : option bool;
  box_fill : option RGBColor
}.

(** A slide, by the operation that built it. *)
Inductive slide :=
| TitleSlide (title subtitle : text_frame)
| ContentSlide (layout_index : nat) (title content : text_frame)
| TwoColumnSlide (title left_column right_column : text_frame)
| CodeSlide (title_box code_box : textbox).

Record Presentation := {
  slide_width : Z;
  slide_height : Z;
  slides : list slide
}.

Definition add_slide (prs : Presentation) (s : slide) : Presentation :=
  {| slide_width := slide_width prs; slide_height := slide_height prs;
     slides := slides prs ++ [s] |}.

Definition set_slide_width (v : Z) (prs : Presentation) : Presentation :=
  {| slide_width := v; slide_height := slide_height prs;
     slides := slides prs |}.

Definition set_slide_height (v : Z) (prs : Presentation) : Presentation :=
  {| slide_width := slide_width prs; slide_height := v;
     slides := slides prs |}.

(** The four operations return the slide they append; [main] drops it, so
    here they return the deck. *)

Definition create_title_slide (prs : Presentation) (title subtitle : str)
    : Presentation :=
  let title_frame := set_text title in
  let subtitle_frame := set_text subtitle in
  let title_frame := on_first (with_font (set_size (Pt 44))) title_frame in
  let title_frame := on_first (with_font (set_bold true)) title_frame in
  let title_frame :=
    on_first (with_font (set_color {| red := 0; green := 51; blue := 102 |}))
             title_frame in
  add_slide prs (TitleSlide title_frame subtitle_frame).

Definition bullet_18 (item : str) : paragraph :=
  {| par_text := item; par_level := Some 0%Z;
     par_font := set_size (Pt 18) plain_font;
     par_space_after := Some (Pt 12) |}.

Definition create_content_slide (prs : Presentation) (title : str)
    (content_items : list str) (layout_index : nat) : Presentation :=
  let title_frame := set_text title in
  let title_frame := on_first (with_font (set_size (Pt 32))) title_frame in
  let title_frame := on_first (with_font (set_bold true)) title_frame in
  let title_frame :=
    on_first (with_font (set_color {| red := 0; green := 51; blue := 102 |}))
             title_frame in
  let text_frame := cleared ++ (bullet_18 <$> content_items) in
  add_slide prs (ContentSlide layout_index title_frame text_frame).

Definition bullet_16 (item : str) : paragraph :=
  {| par_text := item; par_level := None;
     par_font := set_size (Pt 16) plain_font; par_space_after := None |}.

Definition create_two_column_slide (prs : Presentation) (title : str)
    (left_items right_items : list str) : Presentation :=
  let title_frame := set_text title in
  let title_frame := on_first (with_font (set_size (Pt 32))) title_frame in
  let title_frame := on_first (with_font (set_bold true)) title_frame in
  let left_frame := cleared ++ (bullet_16 <$> left_items) in
  let right_frame := cleared ++ (bullet_16 <$> right_items) in
  add_slide prs (TwoColumnSlide title_frame left_frame right_frame).

Definition create_code_slide (prs : Presentation) (title code_text : str)
    (language : str) : Presentation :=
  let title_frame := set_text title in
  let title_frame := on_first (with_font (set_size (Pt 32))) title_frame in
  let title_frame := on_first (with_font (set_bold true)) title_frame in
  let title_frame :=
    on_first (with_font (set_color {| red := 0; green := 51; blue := 102 |}))
             title_frame in
  let title_box :=
    {| box_left := Inches 0.5; box_top := Inches 0.5; box_width := Inches 9;
       box_height := Inches 0.8; box_frame := title_frame;
       box_word_wrap := None; box_fill := None |} in
  let code_frame := set_text code_text in
  let code_frame :=
    on_first (with_font (set_name (py "Courier New"))) code_frame in
  let code_frame := on_first (with_font (set_size (Pt 14))) code_frame in
  let code_box :=
    {| box_left := Inches 0.5; box_top := Inches 1.5; box_width := Inches 9;
       box_height := Inches 5; box_frame := code_frame;
       box_word_wrap := Some true;
       box_fill := Some {| red := 240; green := 240; blue := 240 |} |} in
  add_slide prs (CodeSlide title_box code_box).

(** The lines of a literal that spans several lines. *)
Definition text_lines (lines : list str) : str := join NL lines.

(** A line of a literal that holds double quotes, given by the pieces
    between them. *)
Definition quoted (pieces : list str) : str := join [DQUOTE] pieces.

Definition python_code : str :=
  text_lines
  [ py "# Create a weather agent with tools";
    py "from agent_framework import ChatAgent";
    py "from agent_framework.azure import AzureOpenAIChatClient";
    [];
    py "def get_weather(location: str) -> str:";
    quoted [py "    "; []; []; py "Get weather for a location."; []; []; []];
    quoted [py "    return f"; py "Weather in {location}: Sunny, 72°F"; []];
    [];
    py "agent = ChatAgent(";
    quoted [py "    name="; py "WeatherAssistant"; py ","];
    quoted [py "    instructions="; py "Help users with weather info"; py ","];
    py "    chat_client=AzureOpenAIChatClient(),";
    py "    tools=[get_weather]";
    py ")";
    [];
    quoted [py "response = await agent.run("; py "What's the weather in Seattle?"; py ")"];
    py "print(response.text)" ].

Definition dotnet_code : str :=
  text_lines
  [ py "// Create a weather agent with tools";
    py "using Microsoft.Agents.AI;";
    py "using Microsoft.Agents.AI.Azure;";
    [];
    py "string GetWeather(string location) =>";
    quoted [py "    $"; py "Weather in {location}: Sunny, 72°F"; py ";"];
    [];
    py "var agent = new AzureOpenAIClient(";
    quoted [py "        new Uri(Environment.GetEnvironmentVariable("; py "AZURE_OPENAI_ENDPOINT"; py ")!),"];
    py "        new AzureCliCredential())";
    quoted [py "    .GetChatClient("; py "gpt-4o"; py ")"];
    py "    .CreateAIAgent(";
    quoted [py "        instructions: "; py "Help users with weather information"; py ","];
    py "        tools: [AIFunctionFactory.Create(GetWeather)]);";
    [];
    quoted [py "var response = await agent.RunAsync("; py "What's the weather in Seattle?"; py ");"];
    py "Console.WriteLine(response.Text);" ].

Definition workflow_code : str :=
  text_lines
  [ py "# Create a multi-agent workflow";
    py "from agent_framework import WorkflowBuilder, AgentExecutor";
    [];
    py "# Create agents";
    py "researcher = AgentExecutor(chat_client.create_agent(";
    quoted [py "    instructions="; py "Research facts"; py "))"];
    py "writer = AgentExecutor(chat_client.create_agent(";
    quoted [py "    instructions="; py "Write content"; py "))"];
    [];
    py "# Build workflow";
    py "workflow = (WorkflowBuilder()";
    py "    .set_start_executor(researcher)";
    py "    .add_edge(researcher, writer)";
    py "    .build())";
    [];
    py "# Run workflow";
    quoted [py "async for event in workflow.run_stream("; py "Write about AI"; py "):"];
    py "    print(event)" ].

(** The statements of [main] that add the slides, in order. *)
Definition slide_statements : list (Presentation → Presentation) :=
  [ (λ prs, create_title_slide prs
     (py "Microsoft Agent Framework")
     (text_lines
     [ py "Building, Orchestrating, and Deploying AI Agents";
       py "Private Preview Overview" ]));
    (λ prs, create_content_slide prs
     (py "What is Microsoft Agent Framework?")
     [ py "🤖 Comprehensive multi-language framework for AI agents";
       py "🔄 Support for both .NET and Python implementations";
       py "🎯 Everything from simple chat agents to complex workflows";
       py "🌐 Graph-based orchestration for multi-agent systems";
       py "🔌 Extensible plugin ecosystem";
       py "☁️ Enterprise-ready with Azure integration" ]
     1);
    (λ prs, create_content_slide prs
     (py "Current Status - Private Preview")
     [ py "📦 Status: Active Private Preview";
       py "🔄 Packages: Nightly builds available via GitHub Packages";
       py "🚀 Ready for: Testing, feedback, and early adoption";
       py "📝 Not yet: Public PyPI or NuGet releases";
       py "💬 Feedback: GitHub issues and surveys welcomed";
       py "⚡ Updates: Active development, sync regularly" ]
     1);
    (λ prs, create_content_slide prs
     (py "Key Features & Capabilities")
     [ py "🎭 Multi-Agent Orchestration: Group chat, sequential, concurrent patterns";
       py "📊 Graph-based Workflows: Data flows with streaming & checkpointing";
       py "🔧 Plugin Ecosystem: Native functions, OpenAPI, Model Context Protocol";
       py "🧠 LLM Support: OpenAI, Azure OpenAI, Azure AI Foundry";
       py "⚙️ Runtime Support: In-process and distributed agent execution";
       py "🎨 Multimodal: Text, vision, and function calling";
       py "🔄 Human-in-the-Loop: Interactive approvals and interventions" ]
     1);
    (λ prs, create_content_slide prs
     (py "Architecture Components")
     [ py "1. Chat Agents - Conversational AI agents with instructions, tools, and state management for focused tasks";
       py "2. Agent Executors - Wrapper layer that integrates agents into workflows, enabling coordination between multiple agents";
       py "3. Workflow Builder - Fluent API for creating graph-based orchestrations with edges, streaming, and checkpointing";
       py "4. Chat Clients - Provider-agnostic abstractions supporting OpenAI, Azure OpenAI, and Azure AI Foundry";
       py "5. Tools & Plugins - Type-safe function definitions with automatic schema generation for LLM invocation";
       py "6. Runtime - Flexible execution supporting both in-process agents and distributed multi-agent systems" ]
     1);
    (λ prs, create_two_column_slide prs
     (py "Cross-Platform Support")
     [ py "🐍 Python";
       py "• Version: 3.10+";
       py "• Platforms: Windows, macOS, Linux";
       py "• Package: agent-framework";
       py "• Extensions: azure-ai, microsoft";
       py "• Dev Tools: uv, pip, venv" ]
     [ py ".NET";
       py "• Versions: .NET 9.0, 8.0, Framework 4.7.2";
       py "• Platforms: Windows, macOS, Linux";
       py "• Package: Microsoft.Agents.AI";
       py "• Extensions: Azure, Abstractions";
       py "• Dev Tools: dotnet CLI, NuGet" ]);
    (λ prs, create_content_slide prs
     (py "Types of Agents")
     [ py "💬 ChatAgent - Simple conversational agents with tools";
       py "🔄 AgentExecutor - Agents wrapped for workflows";
       py "🎯 Custom Executors - Python/C# code executors in workflows";
       py "🌐 Azure AI Agents - Managed agents with Azure AI Foundry";
       py "🤖 Azure OpenAI Assistants - Stateful assistants";
       py "📡 Copilot Studio Agents - Microsoft 365 integration" ]
     1);
    (λ prs, create_content_slide prs
     (py "Multi-Agent Orchestration Patterns")
     [ py "🔗 Sequential - Agents execute in order";
       py "⚡ Concurrent (Fan-out/Fan-in) - Parallel execution";
       py "🎯 Handoff - Transfer control between agents";
       py "💬 Group Chat - Multi-agent conversations";
       py "🌳 Hierarchical - Leader-worker patterns";
       py "🔄 Conditional Routing - Dynamic agent selection" ]
     1);
    (λ prs, create_content_slide prs
     (py "Graph-Based Workflows")
     [ py "📊 Visual Workflow Builder - Fluent API for graph construction";
       py "🎬 Streaming Support - Real-time event streaming";
       py "💾 Checkpointing - Save and restore workflow state";
       py "⏮️ Time-Travel Debugging - Replay workflow execution";
       py "🤝 Human-in-the-Loop - Interactive approvals";
       py "📈 Visualization - Mermaid and GraphViz diagrams" ]
     1);
    (λ prs, create_code_slide prs
     (py "Python Example - Simple Agent")
     python_code
     (py "python"));
    (λ prs, create_code_slide prs
     (py ".NET Example - Simple Agent")
     dotnet_code
     (py "python"));
    (λ prs, create_code_slide prs
     (py "Workflow Example - Sequential Agents")
     workflow_code
     (py "python"));
    (λ prs, create_content_slide prs
     (py "Plugin & Tool Ecosystem")
     [ py "⚡ Native Functions - Python/C# functions with annotations";
       py "🌐 OpenAPI - REST API integrations (planned)";
       py "🔌 Model Context Protocol (MCP) - Tool interoperability";
       py "🎯 Azure AI Search - Knowledge base integration (planned)";
       py "🔍 Bing Grounding - Web search capabilities (planned)";
       py "🔧 Custom Tools - Build your own extensions" ]
     1);
    (λ prs, create_content_slide prs
     (py "Azure Integration")
     [ py "🎯 Azure AI Foundry - Managed agent infrastructure";
       py "🧠 Azure OpenAI - GPT models and assistants";
       py "🔐 Azure Identity - AAD authentication";
       py "💾 Azure Cosmos DB - Workflow state storage";
       py "📊 Azure Monitor - Telemetry and logging";
       py "🔍 Application Insights - Performance tracking" ]
     1);
    (λ prs, create_content_slide prs
     (py "Getting Started - Installation")
     [ py "Python:";
       py "  pip install agent-framework";
       py "  pip install agent-framework[azure-ai,microsoft,all]";
       [];
       py ".NET:";
       py "  dotnet add package Microsoft.Agents.AI --version 0.0.1-nightly-*";
       [];
       py "Or run samples directly from the cloned repository!" ]
     1);
    (λ prs, create_content_slide prs
     (py "Configuration - Environment Variables")
     [ py "OpenAI:";
       py "  OPENAI_API_KEY, OPENAI_CHAT_MODEL_ID";
       [];
       py "Azure OpenAI:";
       py "  AZURE_OPENAI_API_KEY, AZURE_OPENAI_ENDPOINT";
       py "  AZURE_OPENAI_CHAT_DEPLOYMENT_NAME";
       [];
       py "Azure AI Foundry:";
       py "  AZURE_AI_PROJECT_ENDPOINT, AZURE_AI_MODEL_DEPLOYMENT_NAME" ]
     1);
    (λ prs, create_two_column_slide prs
     (py "Sample Projects & Examples")
     [ py "Python Samples:";
       py "• Basic agents with tools";
       py "• Azure integration";
       py "• Workflow orchestration";
       py "• Multi-agent patterns";
       py "• Real weather API demo";
       py "• Notebook tutorials" ]
     [ py ".NET Samples:";
       py "• Minimal console agent";
       py "• Agent providers";
       py "• Orchestration patterns";
       py "• Semantic Kernel migration";
       py "• A2A client/server";
       py "• Web chat UI" ]);
    (λ prs, create_content_slide prs
     (py "Development Tools")
     [ py "🖥️ DevUI - Web-based agent testing interface";
       py "🐛 Debugging - Step through agent execution";
       py "📊 Visualization - WorkflowViz for graph diagrams";
       py "📝 Logging - OpenTelemetry instrumentation";
       py "🔍 Tracing - Track agent interactions";
       py "⏮️ Time-Travel - Replay and debug workflows" ]
     1);
    (λ prs, create_content_slide prs
     (py "Best Practices")
     [ py "🔐 Security - Use Azure Identity, avoid hardcoded keys";
       py "📝 Instructions - Clear, specific agent instructions";
       py "🛠️ Tools - Type hints and descriptions for all parameters";
       py "🔄 Error Handling - Graceful failures and retries";
       py "📊 Monitoring - Implement telemetry and logging";
       py "🧪 Testing - Unit test agents and workflows";
       py "📚 Documentation - Document agent capabilities" ]
     1);
    (λ prs, create_content_slide prs
     (py "Resources & Documentation")
     [ py "📚 Repository: github.com/microsoft/agent-framework";
       py "📖 Python Docs: user-documentation-python/";
       py "📖 .NET Docs: user-documentation-dotnet/";
       py "🏗️ Architecture Decisions: docs/decisions/";
       py "🎨 Design Docs: docs/design/";
       py "🐛 Issues: GitHub Issues";
       py "💬 Feedback: Microsoft Forms survey" ]
     1);
    (λ prs, create_content_slide prs
     (py "Current Focus & Evolution")
     [ py "🚀 Active Development Areas:";
       py "• Completing core agent patterns";
       py "• Enhanced workflow capabilities";
       py "• Additional Azure service integrations";
       py "• OpenAPI and MCP tool support";
       py "• Performance optimizations";
       py "• Documentation and samples";
       [];
       py "📦 Moving toward public preview and GA releases" ]
     1);
    (λ prs, create_content_slide prs
     (py "Get Involved!")
     [ py "🔧 Try the Framework:";
       py "  Clone the repo and run samples";
       [];
       py "💬 Provide Feedback:";
       py "  File issues, complete surveys";
       [];
       py "🤝 Contribute:";
       py "  Review contribution guidelines";
       [];
       py "📢 Stay Updated:";
       py "  Sync your repo regularly for latest features" ]
     1);
    (λ prs, create_title_slide prs
     (py "Questions?")
     (text_lines
     [ py "Microsoft Agent Framework";
       [];
       py "Thank you!" ])) ].

(** The statements of [main] up to the save. *)
Definition main_statements : list (Presentation → Presentation) :=
  set_slide_width (Inches 10) :: set_slide_height (Inches 7.5)
  :: slide_statements.

Definition run_statements (l : list (Presentation → Presentation))
    (prs : Presentation) : Presentation :=
  foldl (λ p statement, statement p) prs l.


(** *** Reading a deck *)



(** The frame that carries the title of a slide. *)
Definition title_frame_of (s : slide) : text_frame :=
  match s with
  | TitleSlide t _ => t
  | ContentSlide _ t _ => t
  | TwoColumnSlide t _ _ => t
  | CodeSlide b _ => box_frame b
  end.

(** The font of the first paragraph of the title. *)
Definition title_font (s : slide) : option font :=
  par_font <$> head (title_frame_of s).

End Deck.

(** ** Vocabulary of the statements *)

Module Properties.

Import Weather MdToDocx Deck.

(** Every error text of the weather tools opens with this marker. *)
Definition error_indicator (text : str) : Prop :=
  py "Error:" `prefix_of` text.

(** A computation that, when it raises, raises an instance of
    [Exception]. *)
Definition raises_exception {A} (r : result A) : Prop :=
  match r with
  | Ok _ => True
  | Raise e => is_exception (exn_cls e) = true
  end.

Inductive tool := Basic | Detailed.

Section Tools.

Variable repr_str : str → str.
Variable capitalize : str → str.

Definition report_of (t : tool) : str → result json → result str :=
  match t with
  | Basic => basic_report repr_str
  | Detailed => detailed_report repr_str capitalize
  end.

Definition run_tool (t : tool) (environ : gmap str str)
    (http_get : request → result response) (location : str)
    : result str * list request :=
  match t with
  | Basic => get_real_weather repr_str environ http_get location
  | Detailed =>
    get_real_weather_detailed repr_str capitalize environ http_get location
  end.

(** The executions that go wrong after the request [req] is sent: the
    transport raises, or reading the body of a 200 response raises, or the
    body is read but the report cannot be built from it.  The exceptions
    are instances of [Exception]. *)
Inductive failing (t : tool) (http_get : request → result response)
    (location : str) (req : request) : Prop :=
| transport_raises e :
    http_get req = Raise e →
    is_exception (exn_cls e) = true →
    failing t http_get location req
| body_malformed resp e :
    http_get req = Ok resp →
    status resp = 200%Z →
    body_json resp = Raise e →
    is_exception (exn_cls e) = true →
    failing t http_get location req
| fields_missing resp data e :
    http_get req = Ok resp →
    status resp = 200%Z →
    body_json resp = Ok data →
    report_of t location (Ok data) = Raise e →
    failing t http_get location req.

(** A body that holds the five fields the basic report reads. *)
Record well_formed_basic (data desc temp feels_like humidity wind_speed : json)
    : Prop := {
  wf_weather : ∃ d w0 others,
    data = JDict d
    ∧ dict_lookup (py "weather") d = Some (JList (JDict w0 :: others))
    ∧ dict_lookup (py "description") w0 = Some desc;
  wf_main : ∃ d m,
    data = JDict d
    ∧ dict_lookup (py "main") d = Some (JDict m)
    ∧ dict_lookup (py "temp") m = Some temp
    ∧ dict_lookup (py "feels_like") m = Some feels_like
    ∧ dict_lookup (py "humidity") m = Some humidity;
  wf_wind : ∃ d w,
    data = JDict d
    ∧ dict_lookup (py "wind") d = Some (JDict w)
    ∧ dict_lookup (py "speed") w = Some wind_speed
}.

(** The text that answers each response: a header and four lines for a
    well-formed 200, fixed texts for 401 and 404, the status otherwise. *)
Inductive basic_answer (location : str) (resp : response) : str → Prop :=
| answer_200 data desc temp feels_like humidity wind_speed :
    status resp = 200%Z →
    body_json resp = Ok data →
    well_formed_basic data desc temp feels_like humidity wind_speed →
    basic_answer location resp
      (join NL
         [ py "Weather in " ++ location ++ py ":";
           py "- Conditions: " ++ py_str repr_str desc;
           py "- Temperature: " ++ py_str repr_str temp
             ++ py "°C (feels like " ++ py_str repr_str feels_like ++ py "°C)";
           py "- Humidity: " ++ py_str repr_str humidity ++ py "%";
           py "- Wind Speed: " ++ py_str repr_str wind_speed ++ py " m/s" ])
| answer_401 :
    status resp = 401%Z →
    basic_answer location resp
      (py "Error: Invalid API key. Please check your OPENWEATHERMAP_API_KEY.")
| answer_404 :
    status resp = 404%Z →
    basic_answer location resp
      (py "Error: City '" ++ location
       ++ py "' not found. Try using format like 'Seattle' or 'London,UK'.")
| answer_other :
    status resp ≠ 200%Z → status resp ≠ 401%Z → status resp ≠ 404%Z →
    basic_answer location resp
      (py "Error: Could not fetch weather for " ++ location
       ++ py " (Status: " ++ str_of_Z (status resp) ++ py ")").

End Tools.

(** The message of both tools when the key is not set. *)
Definition NOT_SET_MESSAGE : str :=
  py "Error: OPENWEATHERMAP_API_KEY not set in environment variables."
  ++ NL
  ++ py "Please sign up at https://openweathermap.org/api and add your API key to .env file.".

(** *** Sample inputs *)

(** [repr] of a [str] of printable characters without quote or backslash. *)
Definition simple_repr (s : str) : str := py "'" ++ s ++ py "'".

(** [str.capitalize] on ASCII letters. *)
Definition ascii_upper (c : N) : N :=
  if ((97 <=? c) && (c <=? 122))%N then (c - 32)%N else c.
Definition ascii_lower (c : N) : N :=
  if ((65 <=? c) && (c <=? 90))%N then (c + 32)%N else c.
Definition ascii_capitalize (s : str) : str :=
  match s with
  | [] => []
  | c :: s' => ascii_upper c :: (ascii_lower <$> s')
  end.

Definition sample_environ : gmap str str :=
  {[ API_KEY_VAR := py "k3y" ]}.

Definition sample_body : json :=
  JDict
    [ (py "weather", JList [JDict [(py "description", JStr (py "clear sky"))]]);
      (py "main",
       JDict [ (py "temp", JFloat (py "15.5"));
               (py "feels_like", JFloat (py "14.2"));
               (py "humidity", JInt 65) ]);
      (py "wind", JDict [(py "speed", JFloat (py "3.1"))]) ].

Definition respond (code : Z) (body : result json) (_ : request)
    : result response :=
  Ok {| status := code; body_json := body |}.

(** Outside a fence the code buffer is empty. *)
Definition buffer_invariant (st : state) : Prop :=
  in_code st = false → code_buffer st = [].

(** The cells of a table row of [cols] columns that is filled from
    [row]. *)
Definition padded (cols : nat) (row : list str) : list str :=
  (strip <$> row) ++ replicate (cols - length row) [].

(** A first line inside a fence that ends with two spaces. *)
Definition trailing_space_lines : list str :=
  [ py "```text"; py "a  "; py "# b"; py "| c |"; py "```" ].

(** The control character [U+0001], which XML has no place for. *)
Definition SOH : N := 1.

(** A first line inside a fence that holds a control character. *)
Definition control_char_lines : list str :=
  [ py "```text"; py "a" ++ [SOH] ++ py "b"; py "# b"; py "| c |"; py "```" ].

(** A heading whose text holds a control character. *)
Definition control_heading_line : str := py "# a" ++ [SOH] ++ py "b".

(** A table whose rows have the same width and whose last cell holds a
    control character. *)
Definition control_table_rows : list (list str) :=
  [ [py "A"; py "B"]; [py "1"; py "2" ++ [SOH]] ].

Definition control_table_lines : list str :=
  [ py "| A | B |"; py "| 1 | 2" ++ [SOH] ++ py " |" ].

(** The cells of a row can be stored. *)
Definition storable_row (row : list str) : Prop :=
  Forall (λ col, xml_compatible (strip col) = true) row.

Definition table_lines : list str :=
  [ py "| A | B |"; py "|---|---|"; py "| 1 | 2 |" ].

(** A body row with one cell more than the header row. *)
Definition ragged_lines : list str := [ py "| A |"; py "| 1 | 2 |" ].

Definition empty_Document : Document := {| styles := []; body := [] |}.

(** An empty document after [ensure_mono_style]. *)
Definition styled_Document : Document := ensure_mono_style empty_Document.

Definition empty_world {D} : world D := {| files := ∅; stdout := [] |}.

Definition empty_deck : Presentation :=
  {| slide_width := 0; slide_height := 0; slides := [] |}.


Definition title_color : RGBColor := {| red := 0; green := 51; blue := 102 |}.

(** The title font the four operations are said to set. *)
Definition styled_title (points : Z) : font :=
  {| font_name := None; font_size := Some (Pt points);
     font_bold := Some true; font_color := Some title_color |}.

End Properties.

Import Weather MdToDocx Deck Properties.

(** ** The agent samples

    [azure_ai_with_existing_agent.py] and the streaming example of
    [azure_ai_basic.py].  The agent service is outside the repository: a
    script is run against a [service] that says what each remote call
    returns or raises, and yields the events it caused, in order.
    Entering and leaving the credential, the client and the agent are
    taken not to raise. *)

Module Samples.

Inductive event :=
| Printed (text : str)
| AgentCreated (model name : str)
| AgentRun (agent_id prompt : str)
| AgentStreamed (prompt : str)
| AgentDeleted (agent_id : str).

(** A script step: from the events so far to an outcome and the events
    after it. *)
Definition script (A : Type) : Type := list event → result A * list event.

Definition ret {A} (a : A) : script A := λ log, (Ok a, log).

Definition lift {A} (r : result A) : script A := λ log, (r, log).

Definition emit (ev : event) : script unit := λ log, (Ok (), log ++ [ev]).

Definition and_then {A B} (m : script A) (f : A → script B) : script B :=
  λ log,
    match m log with
    | (Ok a, log') => f a log'
    | (Raise e, log') => (Raise e, log')
    end.

Notation "'do!' x := e 'in' k" := (and_then e (λ x, k))
  (at level 10, x name, e at level 200, k at level 200,
   format "'[v' 'do!'  x  :=  e  'in' '/' k ']'").

(** [try: body finally: cleanup]: the cleanup runs however the body ends;
    an exception of the cleanup replaces the outcome of the body. *)
Definition try_finally {A} (body : script A) (cleanup : script unit)
    : script A :=
  λ log,
    let '(r, log1) := body log in
    match cleanup log1 with
    | (Ok _, log2) => (r, log2)
    | (Raise e, log2) => (Raise e, log2)
    end.

(** [print(text, end=ending)] *)
Definition print_end (text ending : str) : script unit :=
  emit (Printed (text ++ ending)).

(** [print(text)] *)
Definition print (text : str) : script unit := print_end text NL.

(** [os.environ[key]], for a key whose [repr] needs no escape. *)
Definition environ_getitem (environ : gmap str str) (key : str) : result str :=
  match environ !! key with
  | Some v => Ok v
  | None => Raise (Exn KeyError (py "'" ++ key ++ py "'"))
  end.

(** What the remote calls return: [create_agent] gives the id of the new
    agent, [run] the text of the response, [run_stream] the texts of the
    updates and how the stream ends. *)
Record service := {
  create_agent : str → str → result str;
  run : str → str → result str;
  run_stream : str → list (option str) * result unit;
  delete_agent : str → result unit
}.

(** [main()] of [azure_ai_with_existing_agent.py]. *)
Definition existing_agent_main (environ : gmap str str) (svc : service)
    : script unit :=
  do! _ := print (py "=== Azure AI Chat Client with Existing Agent ===") in
  do! endpoint :=
    lift (environ_getitem environ (py "AZURE_AI_PROJECT_ENDPOINT")) in
  do! model :=
    lift (environ_getitem environ (py "AZURE_AI_MODEL_DEPLOYMENT_NAME")) in
  do! _ := emit (AgentCreated model (py "WeatherAgent")) in
  do! created_agent_id := lift (create_agent svc model (py "WeatherAgent")) in
  try_finally
    (let prompt := py "What's the weather like in Tokyo?" in
     do! _ := emit (AgentRun created_agent_id prompt) in
     do! result := lift (run svc created_agent_id prompt) in
     print (py "Result: " ++ result ++ NL))
    (do! _ := emit (AgentDeleted created_agent_id) in
     lift (delete_agent svc created_agent_id)).

(** [async for chunk in ...: if chunk.text: print(chunk.text, end="")] *)
Fixpoint print_chunks (chunks : list (option str)) : script unit :=
  match chunks with
  | [] => ret ()
  | chunk :: rest =>
    do! _ := match chunk with
             | Some (c :: text) => print_end (c :: text) []
             | _ => ret ()
             end in
    print_chunks rest
  end.

(** [streaming_example()] of [azure_ai_basic.py]. *)
Definition streaming_example (svc : service) : script unit :=
  do! _ := print (py "=== Streaming Response Example ===") in
  let query := py "What's the weather like in Mexico City?" in
  do! _ := print (py "User: " ++ query) in
  do! _ := print_end (py "Agent: ") [] in
  do! _ := emit (AgentStreamed query) in
  let '(chunks, ending) := run_stream svc query in
  do! _ := print_chunks chunks in
  do! _ := lift ending in
  print NL.

(** The text on the console after the events. *)
Fixpoint console (log : list event) : str :=
  match log with
  | [] => []
  | Printed text :: log' => text ++ console log'
  | _ :: log' => console log'
  end.

(** The remote calls among the events. *)
Definition is_remote (ev : event) : bool :=
  match ev with
  | Printed _ => false
  | _ => true
  end.

(** A service whose run fails. *)
Definition failing_service : service :=
  {| create_agent := λ _ _, Ok (py "agent-1");
     run := λ _ _, Raise (Exn OtherException (py "run failed"));
     run_stream := λ _, ([Some (py "Sun"); None; Some []; Some (py "ny")], Ok ());
     delete_agent := λ _, Ok () |}.

Definition sample_settings : gmap str str :=
  {[ py "AZURE_AI_PROJECT_ENDPOINT" := py "https://example.test";
     py "AZURE_AI_MODEL_DEPLOYMENT_NAME" := py "gpt" ]}.

End Samples.

(** ** Vocabulary of the further statements *)

Module MoreProperties.

Import Weather MdToDocx Deck Properties.

(** The exception [e] leaves the request or the reading of the body of a
    200 response, before the report is built. *)
Inductive raised_before_report (http_get : request → result response)
    (req : request) (e : exn) : Prop :=
| raised_by_transport :
    http_get req = Raise e → raised_before_report http_get req e
| raised_by_json resp :
    http_get req = Ok resp → status resp = 200%Z →
    body_json resp = Raise e → raised_before_report http_get req e.

Section DetailedReport.

Variable repr_str : str → str.
Variable capitalize : str → str.

(** The fields the detailed report reads from a body; [deg] and
    [visibility] may be absent. *)
Record detailed_fields := {
  f_description : str;
  f_temp : json;
  f_feels_like : json;
  f_temp_min : json;
  f_temp_max : json;
  f_pressure : json;
  f_humidity : json;
  f_wind_speed : json;
  f_wind_deg : option json;
  f_cloudiness : json;
  f_visibility : option json
}.

(** A body that holds these fields. *)
Record well_formed_detailed (data : json) (f : detailed_fields) : Prop := {
  wfd_shape : ∃ d w0 others m w c,
    data = JDict d
    ∧ dict_lookup (py "weather") d = Some (JList (JDict w0 :: others))
    ∧ dict_lookup (py "description") w0 = Some (JStr (f_description f))
    ∧ dict_lookup (py "main") d = Some (JDict m)
    ∧ dict_lookup (py "temp") m = Some (f_temp f)
    ∧ dict_lookup (py "feels_like") m = Some (f_feels_like f)
    ∧ dict_lookup (py "temp_min") m = Some (f_temp_min f)
    ∧ dict_lookup (py "temp_max") m = Some (f_temp_max f)
    ∧ dict_lookup (py "pressure") m = Some (f_pressure f)
    ∧ dict_lookup (py "humidity") m = Some (f_humidity f)
    ∧ dict_lookup (py "wind") d = Some (JDict w)
    ∧ dict_lookup (py "speed") w = Some (f_wind_speed f)
    ∧ dict_lookup (py "deg") w = f_wind_deg f
    ∧ dict_lookup (py "clouds") d = Some (JDict c)
    ∧ dict_lookup (py "all") c = Some (f_cloudiness f)
    ∧ dict_lookup (py "visibility") d = f_visibility f
}.

(** What an optional field shows. *)
Definition or_not_available (v : option json) : str :=
  py_str repr_str (default (JStr (py "N/A")) v).

(** The seventeen lines of the detailed report. *)
Definition detailed_text (location : str) (f : detailed_fields) : str :=
  join NL
    [ py "Detailed Weather Report for " ++ location ++ py ":";
      py "━━━━━━━━━━━━━━━━━━━━━━━━━━━━━━━━";
      py "Conditions: " ++ capitalize (f_description f);
      [];
      py "Temperature:";
      py "  • Current: " ++ py_str repr_str (f_temp f)
        ++ py "°C (feels like " ++ py_str repr_str (f_feels_like f)
        ++ py "°C)";
      py "  • Min/Max: " ++ py_str repr_str (f_temp_min f) ++ py "°C / "
        ++ py_str repr_str (f_temp_max f) ++ py "°C";
      [];
      py "Atmospheric Conditions:";
      py "  • Pressure: " ++ py_str repr_str (f_pressure f) ++ py " hPa";
      py "  • Humidity: " ++ py_str repr_str (f_humidity f) ++ py "%";
      py "  • Cloudiness: " ++ py_str repr_str (f_cloudiness f) ++ py "%";
      py "  • Visibility: " ++ or_not_available (f_visibility f)
        ++ py " meters";
      [];
      py "Wind:";
      py "  • Speed: " ++ py_str repr_str (f_wind_speed f) ++ py " m/s";
      py "  • Direction: " ++ or_not_available (f_wind_deg f) ++ py "°" ].

End DetailedReport.

(** A body without [deg] and [visibility]. *)
Definition sample_detailed_body : json :=
  JDict
    [ (py "weather", JList [JDict [(py "description", JStr (py "clear sky"))]]);
      (py "main",
       JDict [ (py "temp", JFloat (py "15.5"));
               (py "feels_like", JFloat (py "14.2"));
               (py "temp_min", JInt 12);
               (py "temp_max", JInt 18);
               (py "pressure", JInt 1013);
               (py "humidity", JInt 65) ]);
      (py "wind", JDict [(py "speed", JFloat (py "3.1"))]);
      (py "clouds", JDict [(py "all", JInt 0)]) ].

Definition sample_detailed_fields : detailed_fields :=
  {| f_description := py "clear sky";
     f_temp := JFloat (py "15.5"); f_feels_like := JFloat (py "14.2");
     f_temp_min := JInt 12; f_temp_max := JInt 18;
     f_pressure := JInt 1013; f_humidity := JInt 65;
     f_wind_speed := JFloat (py "3.1"); f_wind_deg := None;
     f_cloudiness := JInt 0; f_visibility := None |}.

(** A transport that is interrupted. *)
Definition interrupted (_ : request) : result response :=
  Raise (Exn OtherBaseException (py "cancelled")).

(** A transport that cannot connect. *)
Definition unreachable (_ : request) : result response :=
  Raise (Exn ClientError (py "Cannot connect to host")).

(** A run as markdown writes it: a code run between backticks. *)
Definition render_run (r : run) : str :=
  match run_font_name r with
  | Some _ => [BACKTICK] ++ run_text r ++ [BACKTICK]
  | None => run_text r
  end.

(** The line of a table row with the given cells. *)
Definition row_line (cells : list str) : str :=
  [PIPE] ++ join [PIPE] cells ++ [PIPE].

(** The frame of the code box of a code slide. *)
Definition code_frame_of (s : slide) : text_frame :=
  match s with
  | CodeSlide _ b => box_frame b
  | _ => []
  end.

(** The style a template may already hold under the name [CodeBlock]. *)
Definition other_code_style : style :=
  {| style_name := py "CodeBlock"; style_font_name := Some (py "Consolas");
     style_font_size := None; style_east_asia := None; style_bold := None |}.

(** [d'] is [d] with blocks added at its end and the same styles. *)
Definition extends (d d' : Document) : Prop :=
  styles d' = styles d ∧ body d `prefix_of` body d'.

(** A document that already has a style and two blocks. *)
Definition sample_Document : Document :=
  {| styles := [other_code_style];
     body := [Heading (py "Before") 1; Paragraph None []] |}.

(** What every run of a paragraph is: a plain run or a code run, with a
    text that is not empty; a code run holds no backtick. *)
Definition run_shape (r : run) : Prop :=
  run_text r ≠ []
  ∧ (r = plain_run (run_text r)
     ∨ (r = code_run (run_text r) ∧ BACKTICK ∉ run_text r)).

End MoreProperties.

Import MoreProperties.

(** * Proofs *)

(** Literals are compared as they are written, and evaluated by the
    virtual machine where a proof needs their characters. *)
Opaque py.

(** ** The weather tools *)

Create HintDb raises.

Section WeatherFacts.

Variable repr_str : str → str.
Variable capitalize : str → str.

Lemma raises_exception_bind {A B} (r : result A) (f : A → result B) :
  raises_exception r → (∀ a, raises_exception (f a)) →
  raises_exception (r >>= f).
Proof. destruct r; simpl; auto. Qed.

Lemma getitem_raises o key : raises_exception (getitem repr_str o key).
Proof.
  destruct o; simpl; try reflexivity.
  destruct (dict_lookup key d); simpl; auto.
Qed.

Lemma getitem0_raises o : raises_exception (getitem0 o).
Proof. destruct o as [| | | |[|]|[|]|]; simpl; auto. Qed.

Lemma get_method_raises o key v : raises_exception (get_method o key v).
Proof. destruct o; simpl; auto. Qed.

Lemma capitalize_method_raises o :
  raises_exception (capitalize_method capitalize o).
Proof. destruct o; simpl; auto. Qed.

#[local] Hint Resolve getitem_raises getitem0_raises get_method_raises
  capitalize_method_raises : raises.

Lemma report_raises t location data :
  raises_exception (report_of repr_str capitalize t location (Ok data)).
Proof.
  destruct t; simpl;
    repeat (apply raises_exception_bind; [| intros ?]);
    auto with raises; exact I.
Qed.

Lemma error_indicator_network msg :
  error_indicator (py "Error: Network error occurred: " ++ msg).
Proof. exists (py " Network error occurred: " ++ msg). by vm_compute. Qed.

Lemma error_indicator_unexpected msg :
  error_indicator (py "Error: Unexpected error occurred: " ++ msg).
Proof. exists (py " Unexpected error occurred: " ++ msg). by vm_compute. Qed.

Lemma except_clauses_handles e :
  is_exception (exn_cls e) = true →
  ∃ text, except_clauses (Raise e) = Ok text ∧ error_indicator text.
Proof.
  intros He. unfold except_clauses.
  destruct (is_client_error (exn_cls e)).
  - eauto using error_indicator_network.
  - rewrite He. eauto using error_indicator_unexpected.
Qed.

Lemma run_tool_with_key t environ http_get location api_key :
  environ !! API_KEY_VAR = Some api_key → api_key ≠ [] →
  run_tool repr_str capitalize t environ http_get location
  = (except_clauses
       (let! resp := http_get (weather_request location api_key) in
        status_branches location resp (report_of repr_str capitalize t)),
     [weather_request location api_key]).
Proof.
  intros Hkey Hne.
  destruct t; simpl; unfold get_real_weather, get_real_weather_detailed;
    rewrite Hkey; destruct api_key; congruence.
Qed.

(** C1: when the transport raises, or the body of a 200 response cannot be
    read, or the report cannot be built from it, each weather tool returns
    a text that carries the error marker; nothing reaches the caller. *)
Theorem weather_tools_never_raise t environ http_get location api_key :
  environ !! API_KEY_VAR = Some api_key → api_key ≠ [] →
  failing repr_str capitalize t http_get location
          (weather_request location api_key) →
  ∃ text,
    run_tool repr_str capitalize t environ http_get location
    = (Ok text, [weather_request location api_key])
    ∧ error_indicator text.
Proof.
  intros Hkey Hne Hfail.
  rewrite (run_tool_with_key _ _ _ _ _ Hkey Hne).
  assert (∃ e, (let! resp := http_get (weather_request location api_key) in
                status_branches location resp (report_of repr_str capitalize t))
               = Raise e ∧ is_exception (exn_cls e) = true) as (e & -> & He).
  { destruct Hfail as [e Hget He | resp e Hget Hst Hbody He
                      | resp data e Hget Hst Hbody Hrep].
    - exists e. by rewrite Hget.
    - exists e. rewrite Hget. simpl. unfold status_branches.
      rewrite Hst, Hbody. by destruct t.
    - exists e. rewrite Hget. simpl. unfold status_branches.
      rewrite Hst, Hbody. simpl. split; [done |].
      pose proof (report_raises t location data) as Hr.
      by rewrite Hrep in Hr. }
  destruct (except_clauses_handles e He) as (text & -> & Hind).
  eauto.
Qed.

(** C3: without a key, or with an empty one, both tools return the fixed
    message and send no request. *)
Theorem missing_key_sends_no_request environ http_get location :
  environ !! API_KEY_VAR = None ∨ environ !! API_KEY_VAR = Some [] →
  get_real_weather repr_str environ http_get location
  = (Ok NOT_SET_MESSAGE, [])
  ∧ get_real_weather_detailed repr_str capitalize environ http_get location
    = (Ok NOT_SET_MESSAGE, []).
Proof.
  unfold get_real_weather, get_real_weather_detailed, NOT_SET_MESSAGE.
  intros [-> | ->]; split; reflexivity.
Qed.

Lemma basic_report_well_formed location data desc temp feels_like humidity
    wind_speed :
  well_formed_basic data desc temp feels_like humidity wind_speed →
  basic_report repr_str location (Ok data)
  = Ok (join NL
          [ py "Weather in " ++ location ++ py ":";
            py "- Conditions: " ++ py_str repr_str desc;
            py "- Temperature: " ++ py_str repr_str temp
              ++ py "°C (feels like " ++ py_str repr_str feels_like
              ++ py "°C)";
            py "- Humidity: " ++ py_str repr_str humidity ++ py "%";
            py "- Wind Speed: " ++ py_str repr_str wind_speed ++ py " m/s" ]).
Proof.
  intros [(d & w0 & others & -> & Hw & Hdesc)
          (d1 & m & [= <-] & Hm & Htemp & Hfeels & Hhum)
          (d2 & w & [= <-] & Hwind & Hspeed)].
  unfold basic_report. simpl.
  rewrite Hw, Hm, Hwind. simpl.
  rewrite Hdesc, Htemp, Hfeels, Hhum, Hspeed. simpl.
  f_equal. unfold join. by rewrite <- !app_assoc.
Qed.

(** C2, amended: for every location and response, the basic tool answers
    a well-formed 200 with a header line that names the location and four
    lines that carry the description, the temperature with its feels-like
    value, the humidity and the wind speed; 401 with the fixed invalid-key
    text; 404 with the fixed not-found text that holds the location; any
    other status with a text that holds its number. *)
Theorem basic_tool_status_mapping environ http_get location api_key resp text :
  environ !! API_KEY_VAR = Some api_key → api_key ≠ [] →
  http_get (weather_request location api_key) = Ok resp →
  basic_answer repr_str location resp text →
  get_real_weather repr_str environ http_get location
  = (Ok text, [weather_request location api_key]).
Proof.
  intros Hkey Hne Hget Hans.
  change (run_tool repr_str capitalize Basic environ http_get location
          = (Ok text, [weather_request location api_key])).
  rewrite (run_tool_with_key _ _ _ _ _ Hkey Hne), Hget.
  cbn [bind report_of]. unfold status_branches.
  destruct Hans as [data desc temp feels hum wind Hst Hbody Hwf
                   | Hst | Hst | H200 H401 H404].
  - rewrite Hst, Hbody. cbn [Z.eqb Pos.eqb].
    rewrite (basic_report_well_formed _ _ _ _ _ _ _ Hwf). reflexivity.
  - rewrite Hst. reflexivity.
  - rewrite Hst. reflexivity.
  - apply Z.eqb_neq in H200, H401, H404. rewrite H200, H401, H404.
    reflexivity.
Qed.

End WeatherFacts.

(** A run in which the body of the 200 response is an empty object. *)
Lemma weather_tools_never_raise_witness :
  ∃ text,
    run_tool simple_repr ascii_capitalize Detailed sample_environ
             (respond 200 (Ok (JDict []))) (py "Seattle")
    = (Ok text, [weather_request (py "Seattle") (py "k3y")])
    ∧ error_indicator text.
Proof.
  apply (weather_tools_never_raise simple_repr ascii_capitalize Detailed
           sample_environ (respond 200 (Ok (JDict []))) (py "Seattle")
           (py "k3y")).
  - reflexivity.
  - discriminate.
  - eapply fields_missing; reflexivity.
Defined.

Lemma missing_key_sends_no_request_witness :
  get_real_weather simple_repr ∅ (respond 200 (Ok sample_body)) (py "Seattle")
  = (Ok NOT_SET_MESSAGE, [])
  ∧ get_real_weather_detailed simple_repr ascii_capitalize ∅
      (respond 200 (Ok sample_body)) (py "Seattle")
    = (Ok NOT_SET_MESSAGE, []).
Proof.
  apply (missing_key_sends_no_request simple_repr ascii_capitalize ∅
           (respond 200 (Ok sample_body)) (py "Seattle")).
  left. reflexivity.
Defined.

Lemma sample_body_well_formed :
  well_formed_basic sample_body (JStr (py "clear sky")) (JFloat (py "15.5"))
    (JFloat (py "14.2")) (JInt 65) (JFloat (py "3.1")).
Proof.
  split.
  - eexists _, _, _. split; [reflexivity |]. split; reflexivity.
  - eexists _, _. repeat (split; [reflexivity |]). reflexivity.
  - eexists _, _. repeat (split; [reflexivity |]). reflexivity.
Defined.

Lemma basic_tool_status_mapping_witness :
  get_real_weather simple_repr sample_environ (respond 200 (Ok sample_body))
    (py "Seattle")
  = (Ok (join NL
           [ py "Weather in Seattle:";
             py "- Conditions: clear sky";
             py "- Temperature: 15.5°C (feels like 14.2°C)";
             py "- Humidity: 65%";
             py "- Wind Speed: 3.1 m/s" ]),
     [weather_request (py "Seattle") (py "k3y")]).
Proof.
  apply (basic_tool_status_mapping simple_repr ascii_capitalize
           sample_environ (respond 200 (Ok sample_body)) (py "Seattle")
           (py "k3y") {| status := 200; body_json := Ok sample_body |}).
  - reflexivity.
  - discriminate.
  - reflexivity.
  - exact (answer_200 simple_repr (py "Seattle")
             {| status := 200; body_json := Ok sample_body |}
             sample_body _ _ _ _ _ eq_refl eq_refl sample_body_well_formed).
Defined.

(** C2 as stated fails: the report for a well-formed 200 response has five
    lines, not four. *)
Lemma basic_report_has_five_lines :
  ∃ text,
    get_real_weather simple_repr sample_environ (respond 200 (Ok sample_body))
      (py "Seattle")
    = (Ok text, [weather_request (py "Seattle") (py "k3y")])
    ∧ line_count text = 5%nat ∧ line_count text ≠ 4%nat.
Proof.
  eexists. split; [reflexivity |]. split; [reflexivity | discriminate].
Qed.

(** A closed decidable statement, evaluated. *)
Ltac decide_closed := refine (bool_decide_unpack _ _); vm_compute; exact I.

(** ** Strings *)

Lemma rstrip_cons_nonspace c s :
  isspace c = false → rstrip (c :: s) = c :: rstrip s.
Proof. intros Hc. simpl. rewrite Hc. by destruct (rstrip s). Qed.

Lemma rstrip_cons_nonblank c s :
  rstrip s ≠ [] → rstrip (c :: s) = c :: rstrip s.
Proof. intros Hs. simpl. by destruct (rstrip s). Qed.

Lemma rstrip_prefix s : rstrip s `prefix_of` s.
Proof.
  induction s as [| c s [k Hk]]; simpl.
  - by exists [].
  - destruct (rstrip s) as [| r0 r] eqn:Hr.
    + destruct (isspace c).
      * apply prefix_nil.
      * exists s. reflexivity.
    + exists k. simpl. by rewrite Hk at 1.
Qed.

Lemma rstrip_nonblank s c :
  c ∈ s → isspace c = false → rstrip s ≠ [].
Proof.
  induction s as [| x s IH]; intros Hin Hc.
  - by apply elem_of_nil in Hin.
  - simpl. apply elem_of_cons in Hin as [<- | Hin].
    + rewrite Hc. by destruct (rstrip s).
    + specialize (IH Hin Hc). by destruct (rstrip s).
Qed.

Lemma rstrip_no_lf s : LF ∉ s → LF ∉ rstrip s.
Proof.
  intros Hs Hin. destruct (rstrip_prefix s) as [k Hk].
  apply Hs. rewrite Hk. apply elem_of_app. by left.
Qed.

Lemma rstrip_idempotent s : rstrip (rstrip s) = rstrip s.
Proof.
  induction s as [| c s IH]; [done |]. simpl.
  destruct (rstrip s) as [| r0 r] eqn:Hr.
  - destruct (isspace c) eqn:Hc; simpl; by rewrite ?Hc.
  - rewrite rstrip_cons_nonblank; by rewrite IH.
Qed.

Lemma lstrip_rstrip s : lstrip (rstrip s) = rstrip (lstrip s).
Proof.
  induction s as [| c s IH]; [done |].
  destruct (isspace c) eqn:Hc.
  - simpl lstrip at 2. rewrite Hc, <- IH. simpl.
    destruct (rstrip s) as [| r0 r]; simpl; by rewrite Hc.
  - rewrite rstrip_cons_nonspace by done. simpl. by rewrite Hc, rstrip_cons_nonspace.
Qed.

Lemma lstrip_idempotent s : lstrip (lstrip s) = lstrip s.
Proof.
  induction s as [| c s IH]; [done |]. simpl.
  destruct (isspace c) eqn:Hc; [done |]. simpl. by rewrite Hc.
Qed.

Lemma strip_lstrip s : strip (lstrip s) = strip s.
Proof.
  unfold strip. by rewrite <- lstrip_rstrip, lstrip_idempotent.
Qed.

Lemma strip_rstrip s : strip (rstrip s) = strip s.
Proof. unfold strip. by rewrite rstrip_idempotent. Qed.

Lemma span_isspace_lstrip s : (span isspace s).2 = lstrip s.
Proof.
  induction s as [| c s IH]; [done |]. simpl.
  destruct (isspace c); [| done]. by destruct (span isspace s).
Qed.

Lemma span_hashes n s :
  head s ≠ Some HASH →
  span (λ c, (c =? HASH)%N) (replicate n HASH ++ s) = (replicate n HASH, s).
Proof.
  intros Hs. induction n as [| n IH]; simpl.
  - destruct s as [| c s]; [done |]. simpl.
    destruct (c =? HASH)%N eqn:Hc; [| done].
    apply N.eqb_eq in Hc. by subst.
  - by rewrite IH.
Qed.

Lemma lstrip_suffix s : lstrip s `suffix_of` s.
Proof.
  induction s as [| c s IH]; simpl; [done |].
  destruct (isspace c); [by apply suffix_cons_r | done].
Qed.

Lemma rstrip_app_nonblank a b :
  rstrip b ≠ [] → rstrip (a ++ b) = a ++ rstrip b.
Proof.
  intros Hb. induction a as [| c a IH]; [done |].
  simpl app. rewrite rstrip_cons_nonblank; rewrite IH; [done |].
  by destruct a.
Qed.

Lemma match_nonempty {A B} (l : list A) (a b : B) :
  l ≠ [] → match l with [] => a | _ :: _ => b end = b.
Proof. by destruct l. Qed.

Lemma split_nonempty sep s : split sep s ≠ [].
Proof.
  destruct s as [| c s]; [done |]. simpl.
  destruct (c =? sep)%N; [done |]. by destruct (split sep s).
Qed.

(** ** Text that can be stored *)

Lemma pieces_chars text : Forall (λ p, p ⊆ text) (pieces text).
Proof.
  induction text as [| c text IH]; simpl.
  - constructor; [done | constructor].
  - destruct (separator c).
    + constructor; [set_solver |].
      eapply Forall_impl; [exact IH |]. set_solver.
    + destruct (pieces text) as [| p ps].
      * constructor; [set_solver | constructor].
      * apply Forall_cons in IH as [Hp Hps]. constructor; [set_solver |].
        eapply Forall_impl; [exact Hps |]. set_solver.
Qed.

Lemma xml_compatible_subseteq p text :
  p ⊆ text → xml_compatible text = true → xml_compatible p = true.
Proof.
  unfold xml_compatible. rewrite !forallb_forall. intros Hsub Hall c Hc.
  apply Hall, list_elem_of_In, Hsub, list_elem_of_In, Hc.
Qed.

Lemma xml_char_not_surrogate c : xml_char c = true → surrogate c = false.
Proof.
  intros Hc. destruct (surrogate c) eqn:Hs; [| done]. exfalso.
  unfold xml_char in Hc. rewrite Hs in Hc. cbn [negb] in Hc.
  rewrite andb_false_r in Hc. cbn [andb] in Hc. rewrite orb_false_r in Hc.
  unfold surrogate in Hs. apply andb_true_iff in Hs as [Hs _].
  apply N.leb_le in Hs. unfold separator, LF, CR in Hc.
  repeat (apply orb_true_iff in Hc as [Hc | Hc]); apply N.eqb_eq in Hc; lia.
Qed.

Lemma encode_error_compatible piece :
  xml_compatible piece = true → encode_error piece = None.
Proof.
  intros Hpiece. unfold encode_error.
  assert (span (λ c, negb (surrogate c)) piece = (piece, [])) as ->; [| done].
  induction piece as [| c piece IH]; [done |]. simpl in *.
  apply andb_true_iff in Hpiece as [Hc Hpiece].
  by rewrite (xml_char_not_surrogate c Hc), IH.
Qed.

Lemma first_error_compatible ps :
  Forall (λ p, xml_compatible p = true) ps → first_error ps = None.
Proof.
  induction 1 as [| p ps Hp _ IH]; simpl; [done |].
  unfold piece_error. by rewrite encode_error_compatible, Hp.
Qed.

Lemma store_text_compatible text :
  xml_compatible text = true → store_text text = Ok ().
Proof.
  intros Htext. unfold store_text. rewrite first_error_compatible; [done |].
  eapply Forall_impl; [apply pieces_chars |].
  intros p Hp. exact (xml_compatible_subseteq p text Hp Htext).
Qed.

Lemma xml_compatible_app a b :
  xml_compatible (a ++ b) = xml_compatible a && xml_compatible b.
Proof. apply forallb_app. Qed.

Lemma xml_compatible_join ls :
  Forall (λ l, xml_compatible l = true) ls →
  xml_compatible (join NL ls) = true.
Proof.
  induction 1 as [| l ls Hl Hls IH]; [done |].
  destruct ls as [| l' ls]; [done |].
  change (join NL (l :: l' :: ls)) with (l ++ NL ++ join NL (l' :: ls)).
  rewrite !xml_compatible_app, Hl, IH. reflexivity.
Qed.

Lemma add_runs_compatible runs :
  Forall (λ r, xml_compatible (run_text r) = true) runs →
  add_runs runs = Ok ().
Proof.
  induction 1 as [| r runs Hr _ IH]; simpl; [done |].
  by rewrite store_text_compatible.
Qed.

(** ** The markdown converter *)

Lemma dot_star_end_no_lf s : LF ∉ s → dot_star_end s = Some s.
Proof.
  intros Hs. unfold dot_star_end.
  assert (span (λ c, negb (c =? LF)%N) s = (s, [])) as ->; [| done].
  induction s as [| c s IH]; [done |]. simpl.
  apply not_elem_of_cons in Hs as [Hc Hs].
  assert ((c =? LF)%N = false) as -> by (apply N.eqb_neq; congruence).
  simpl. by rewrite IH.
Qed.

Lemma fence_literal : py "```" = [BACKTICK; BACKTICK; BACKTICK].
Proof. by vm_compute. Qed.

Lemma CODE_FENCE_match_prefix line tag :
  CODE_FENCE_match line = Some tag → py "```" `prefix_of` line.
Proof.
  rewrite fence_literal. destruct line as [| a [| b [| c rest]]]; try done.
  simpl. destruct (a =? BACKTICK)%N eqn:Ha; [| done].
  destruct (b =? BACKTICK)%N eqn:Hb; [| done].
  destruct (c =? BACKTICK)%N eqn:Hc; [| done].
  apply N.eqb_eq in Ha, Hb, Hc. subst. intros _. by exists rest.
Qed.

Lemma CODE_FENCE_match_fence tag :
  LF ∉ tag → CODE_FENCE_match (rstrip (py "```" ++ tag)) = Some (rstrip tag).
Proof.
  intros Htag. rewrite fence_literal. simpl app.
  rewrite !rstrip_cons_nonspace by done. simpl.
  by apply dot_star_end_no_lf, rstrip_no_lf.
Qed.

Lemma CODE_FENCE_match_other line :
  ¬ py "```" `prefix_of` line → CODE_FENCE_match (rstrip line) = None.
Proof.
  intros Hline. destruct (CODE_FENCE_match (rstrip line)) as [tag |] eqn:Hm;
    [| done].
  destruct Hline. etrans; [by eapply CODE_FENCE_match_prefix |].
  apply rstrip_prefix.
Qed.

(** What a flush of the table leaves of the state. *)
Lemma flush_table_state st st' :
  flush_table st = Ok st' →
  in_code st' = in_code st ∧ code_lang st' = code_lang st
  ∧ code_buffer st' = code_buffer st ∧ table_buffer st' = [].
Proof.
  unfold flush_table. destruct (table_buffer st) eqn:Htb; [by intros [= <-] |].
  destruct (add_table _ _); simpl; [| done]. by intros [= <-].
Qed.

Lemma flush_table_code st st' :
  flush_table st = Ok st' →
  in_code st' = in_code st ∧ code_buffer st' = code_buffer st.
Proof. intros (? & _ & ? & _)%flush_table_state. by split. Qed.

Lemma flush_code_state st st' :
  flush_code st = Ok st' →
  in_code st' = in_code st ∧ code_buffer st' = []
  ∧ table_buffer st' = table_buffer st.
Proof.
  unfold flush_code. destruct (code_buffer st) eqn:Hb; [by intros [= <-] |].
  destruct (add_code_block _ _ _); simpl; [| done]. by intros [= <-].
Qed.

(** The branches of the loop that flush the table and then add a block. *)
Lemma flush_then st st' (f : state → result Document) :
  (let! s := flush_table st in let! d := f s in Ok (with_doc s d)) = Ok st' →
  ∃ s d, flush_table st = Ok s ∧ f s = Ok d ∧ st' = with_doc s d.
Proof.
  destruct (flush_table st) as [s |]; simpl; [| done].
  destruct (f s) as [d |] eqn:Hd; simpl; [| done].
  intros [= <-]. by exists s, d.
Qed.

Lemma step_invariant st line st' :
  buffer_invariant st → step st line = Ok st' → buffer_invariant st'.
Proof.
  unfold buffer_invariant, step. intros Hinv.
  destruct (CODE_FENCE_match _).
  { destruct (in_code st); [| intros [= <-]; simpl; done].
    destruct (flush_code st) as [s |] eqn:Hs; simpl; [| done].
    apply flush_code_state in Hs as (_ & Hs & _). by intros [= <-]. }
  destruct (in_code st) eqn:Hin; [intros [= <-]; simpl; congruence |].
  specialize (Hinv eq_refl).
  assert (∀ f, (let! s := flush_table st in
                let! d := f s in Ok (with_doc s d)) = Ok st' →
               in_code st' = false → code_buffer st' = []) as Hflush.
  { intros f (s & d & Hs & _ & ->)%flush_then.
    apply flush_table_code in Hs as [_ Hs]. simpl. congruence. }
  destruct (strip _).
  { apply (Hflush (λ s, Ok (add_block (doc s) (Paragraph None [])))). }
  destruct (HEADING_match _) as [[marks title] |]; [apply Hflush |].
  destruct (TABLE_ROW_match _); [| apply Hflush].
  destruct (forallb _ _); by intros [= <-].
Qed.

Lemma run_lines_invariant lines st st' :
  buffer_invariant st → run_lines st lines = Ok st' → buffer_invariant st'.
Proof.
  revert st. induction lines as [| l lines IH]; intros st Hinv; simpl.
  - by intros [= <-].
  - destruct (step st l) as [s |] eqn:Hs; simpl; [| done].
    eauto using step_invariant.
Qed.

Lemma run_lines_app st a b :
  run_lines st (a ++ b) = (let! s := run_lines st a in run_lines s b).
Proof.
  revert st. induction a as [| l a IH]; intros st; simpl; [done |].
  destruct (step st l); simpl; auto.
Qed.

Lemma step_open_fence st tag :
  in_code st = false → LF ∉ tag →
  step st (py "```" ++ tag)
  = Ok {| doc := doc st; in_code := true;
          code_lang := match strip (rstrip tag) with
                       | [] => None
                       | t => Some t
                       end;
          code_buffer := code_buffer st; table_buffer := table_buffer st |}.
Proof.
  intros Hin Htag. unfold step.
  by rewrite CODE_FENCE_match_fence, Hin.
Qed.

Lemma step_inside_fence st line :
  in_code st = true → ¬ py "```" `prefix_of` line →
  step st line
  = Ok {| doc := doc st; in_code := true; code_lang := code_lang st;
          code_buffer := code_buffer st ++ [rstrip line];
          table_buffer := table_buffer st |}.
Proof.
  intros Hin Hline. unfold step.
  by rewrite CODE_FENCE_match_other, Hin.
Qed.

Lemma step_close_fence st rest :
  in_code st = true → LF ∉ rest →
  step st (py "```" ++ rest)
  = (let! s := flush_code st in
     Ok {| doc := doc s; in_code := false; code_lang := code_lang s;
           code_buffer := code_buffer s; table_buffer := table_buffer s |}).
Proof.
  intros Hin Hrest. unfold step.
  by rewrite CODE_FENCE_match_fence, Hin.
Qed.

(** *** What the loop keeps *)

Lemma extends_refl d : extends d d.
Proof. by split. Qed.

Lemma extends_trans d1 d2 d3 : extends d1 d2 → extends d2 d3 → extends d1 d3.
Proof. intros [Hs1 Hb1] [Hs2 Hb2]. split; [congruence | by etrans]. Qed.

Lemma extends_add_block d b : extends d (add_block d b).
Proof. split; [done |]. by apply prefix_app_r. Qed.

Lemma add_table_extends d rows d' : add_table d rows = Ok d' → extends d d'.
Proof.
  destruct rows as [| header body_rows]; simpl.
  - intros [= <-]. apply extends_refl.
  - destruct (fill_row _ _); simpl; [| done].
    destruct (fill_rows _ _); simpl; [| done].
    intros [= <-]. apply extends_add_block.
Qed.

Lemma add_heading_extends d text level d' :
  add_heading d text level = Ok d' → extends d d'.
Proof.
  unfold add_heading. cbv zeta. destruct (_ && _); [| done].
  destruct (store_text text); simpl; [| done].
  intros [= <-]. apply extends_add_block.
Qed.

Lemma add_code_block_extends d code_lines language d' :
  add_code_block d code_lines language = Ok d' → extends d d'.
Proof.
  unfold add_code_block. destruct (has_style _ _); [| done]. cbv zeta.
  destruct (store_text _); simpl; [| done].
  intros [= <-]. apply extends_add_block.
Qed.

Lemma add_paragraph_extends d runs d' :
  add_paragraph d runs = Ok d' → extends d d'.
Proof.
  unfold add_paragraph. destruct (add_runs runs); simpl; [| done].
  intros [= <-]. apply extends_add_block.
Qed.

Lemma flush_table_extends st st' :
  flush_table st = Ok st' → extends (doc st) (doc st').
Proof.
  unfold flush_table. destruct (table_buffer st).
  - intros [= <-]. apply extends_refl.
  - destruct (add_table _ _) eqn:Hadd; simpl; [| done].
    intros [= <-]. simpl. by eapply add_table_extends.
Qed.

Lemma flush_code_extends st st' :
  flush_code st = Ok st' → extends (doc st) (doc st').
Proof.
  unfold flush_code. destruct (code_buffer st).
  - intros [= <-]. apply extends_refl.
  - destruct (add_code_block _ _ _) eqn:Hadd; simpl; [| done].
    intros [= <-]. simpl. by eapply add_code_block_extends.
Qed.

Lemma step_extends st line st' :
  step st line = Ok st' → extends (doc st) (doc st').
Proof.
  unfold step.
  assert (∀ f, (∀ s d, f s = Ok d → extends (doc s) d) →
               (let! s := flush_table st in
                let! d := f s in Ok (with_doc s d)) = Ok st' →
               extends (doc st) (doc st')) as Hflush.
  { intros f Hf (s & d & Hs & Hd & ->)%flush_then.
    eapply extends_trans; [by eapply flush_table_extends |].
    by apply Hf. }
  destruct (CODE_FENCE_match _).
  { destruct (in_code st); [| intros [= <-]; apply extends_refl].
    destruct (flush_code st) as [s |] eqn:Hs; simpl; [| done].
    intros [= <-]. cbn [doc]. by apply flush_code_extends. }
  destruct (in_code st); [intros [= <-]; apply extends_refl |].
  destruct (strip _).
  { apply (Hflush (λ s, Ok (add_block (doc s) (Paragraph None [])))).
    intros s d [= <-]. apply extends_add_block. }
  destruct (HEADING_match _) as [[marks title] |].
  { apply Hflush. intros s d. apply add_heading_extends. }
  destruct (TABLE_ROW_match _).
  - destruct (forallb _ _); intros [= <-]; apply extends_refl.
  - apply Hflush. intros s d. apply add_paragraph_extends.
Qed.

Lemma run_lines_extends lines : ∀ st st',
  run_lines st lines = Ok st' → extends (doc st) (doc st').
Proof.
  induction lines as [| l lines IH]; intros st st'; simpl.
  - intros [= <-]. apply extends_refl.
  - destruct (step st l) as [s |] eqn:Hs; simpl; [| done].
    intros Hrun. eapply extends_trans; [by eapply step_extends | by eapply IH].
Qed.

Lemma convert_lines_extends d lines d' :
  convert_lines d lines = Ok d' → extends d d'.
Proof.
  unfold convert_lines.
  destruct (run_lines _ _) as [st |] eqn:Hrun; simpl; [| done].
  destruct (flush_code _) as [st1 |] eqn:Hcode; simpl; [| done].
  destruct (flush_table _) as [st2 |] eqn:Hflush; simpl; [| done].
  intros [= <-].
  apply run_lines_extends in Hrun. apply flush_code_extends in Hcode.
  apply flush_table_extends in Hflush.
  eapply extends_trans; [exact Hrun |].
  eapply extends_trans; [exact Hcode | exact Hflush].
Qed.

Lemma has_style_extends name d d' :
  extends d d' → has_style name d' = has_style name d.
Proof. intros [Hstyles _]. unfold has_style. by rewrite Hstyles. Qed.

(** *** Fences *)

(** A flush of lines that can be stored adds their code block. *)
Lemma flush_code_lines st l ls :
  code_buffer st = l :: ls →
  has_style (py "CodeBlock") (doc st) = true →
  xml_compatible (join NL (l :: ls)) = true →
  flush_code st
  = Ok {| doc := {| styles := styles (doc st);
                    body := body (doc st)
                            ++ [Paragraph (Some (py "CodeBlock"))
                                  [{| run_text := join NL (l :: ls);
                                      run_font_name := None;
                                      run_font_size := None;
                                      run_bold := None |}]] |};
          in_code := in_code st; code_lang := None; code_buffer := [];
          table_buffer := table_buffer st |}.
Proof.
  intros Hbuf Hstyle Hxml. unfold flush_code, add_code_block.
  rewrite Hbuf, Hstyle. cbv zeta. by rewrite store_text_compatible.
Qed.

Lemma run_lines_inside_fence ls : ∀ st,
  in_code st = true →
  Forall (λ l, ¬ py "```" `prefix_of` l) ls →
  run_lines st ls
  = Ok {| doc := doc st; in_code := true; code_lang := code_lang st;
          code_buffer := code_buffer st ++ (rstrip <$> ls);
          table_buffer := table_buffer st |}.
Proof.
  induction ls as [| l ls IH]; intros st Hin Hls; simpl.
  - rewrite app_nil_r. by destruct st; simpl in *; subst.
  - apply Forall_cons in Hls as [Hl Hls].
    rewrite step_inside_fence by done. simpl.
    rewrite IH by done. simpl. by rewrite <- app_assoc.
Qed.

(** A whole fence, read outside a fence: the state after its closing
    line. *)
Lemma run_fence st tag ls rest :
  in_code st = false → code_buffer st = [] →
  has_style (py "CodeBlock") (doc st) = true →
  LF ∉ tag → LF ∉ rest → ls ≠ [] →
  Forall (λ l, ¬ py "```" `prefix_of` l) ls →
  Forall (λ l, xml_compatible (rstrip l) = true) ls →
  run_lines st ([py "```" ++ tag] ++ ls ++ [py "```" ++ rest])
  = Ok {| doc := {| styles := styles (doc st);
                    body := body (doc st)
                            ++ [Paragraph (Some (py "CodeBlock"))
                                  [{| run_text := join NL (rstrip <$> ls);
                                      run_font_name := None;
                                      run_font_size := None;
                                      run_bold := None |}]] |};
          in_code := false; code_lang := None; code_buffer := [];
          table_buffer := table_buffer st |}.
Proof.
  intros Hin Hbuf Hstyle Htag Hrest Hne Hls Hxml.
  cbn [app run_lines]. rewrite step_open_fence by done. cbn [bind].
  rewrite run_lines_app, run_lines_inside_fence by done. cbn [bind run_lines].
  rewrite step_close_fence by done.
  cbn [code_buffer]. rewrite Hbuf. cbn [app].
  assert (xml_compatible (join NL (rstrip <$> ls)) = true) as Hjoin
    by (apply xml_compatible_join, Forall_fmap; exact Hxml).
  destruct (rstrip <$> ls) as [| b bs] eqn:Hb; [by destruct ls |].
  erewrite flush_code_lines;
    [reflexivity | reflexivity | exact Hstyle | exact Hjoin].
Qed.

(** C4, amended: a fence line (with or without a tag), three lines that do
    not open with three backticks, and a closing fence line, read outside a
    fence, add exactly one block at the end of the body, a paragraph of
    style CodeBlock with one run; its text is the three lines, each without
    its trailing whitespace, joined by line feeds.  The lines are not read
    as headings or table rows.  This holds when the stripped lines hold no
    character that XML forbids; the document has the style CodeBlock, as
    it has after [ensure_mono_style]. *)
Theorem fenced_block_content d pre st tag l1 l2 l3 rest :
  has_style (py "CodeBlock") d = true →
  run_lines (initial_state d) pre = Ok st → in_code st = false →
  LF ∉ tag → LF ∉ rest →
  ¬ py "```" `prefix_of` l1 → ¬ py "```" `prefix_of` l2 →
  ¬ py "```" `prefix_of` l3 →
  xml_compatible (rstrip l1) = true → xml_compatible (rstrip l2) = true →
  xml_compatible (rstrip l3) = true →
  ∃ st',
    run_lines (initial_state d)
              (pre ++ [py "```" ++ tag; l1; l2; l3; py "```" ++ rest])
    = Ok st'
    ∧ styles (doc st') = styles (doc st)
    ∧ body (doc st')
      = body (doc st)
        ++ [Paragraph (Some (py "CodeBlock"))
              [{| run_text := join NL [rstrip l1; rstrip l2; rstrip l3];
                  run_font_name := None; run_font_size := None;
                  run_bold := None |}]]
    ∧ in_code st' = false ∧ code_buffer st' = []
    ∧ table_buffer st' = table_buffer st.
Proof.
  intros Hstyle Hpre Hin Htag Hrest H1 H2 H3 X1 X2 X3.
  assert (code_buffer st = []) as Hbuf.
  { by eapply (run_lines_invariant pre (initial_state d)). }
  assert (has_style (py "CodeBlock") (doc st) = true) as Hstyled.
  { rewrite (has_style_extends _ d (doc st)); [exact Hstyle |].
    apply (run_lines_extends pre (initial_state d) st Hpre). }
  rewrite run_lines_app, Hpre. cbn [bind].
  change [py "```" ++ tag; l1; l2; l3; py "```" ++ rest]
    with ([py "```" ++ tag] ++ [l1; l2; l3] ++ [py "```" ++ rest]).
  rewrite (run_fence st tag [l1; l2; l3] rest); try done.
  - eexists. split; [reflexivity |]. cbn [doc styles body in_code code_buffer
      table_buffer]. split; [reflexivity |]. split; [reflexivity |].
    split; [reflexivity |]. split; reflexivity.
  - repeat (constructor; [assumption |]). constructor.
  - repeat (constructor; [assumption |]). constructor.
Qed.

Lemma fenced_block_content_witness :
  ∃ st',
    run_lines (initial_state styled_Document)
              ([] ++ [py "```" ++ py "text"; py "a  "; py "# b"; py "| c |";
                      py "```" ++ []])
    = Ok st'
    ∧ styles (doc st') = styles styled_Document
    ∧ body (doc st')
      = [] ++ [Paragraph (Some (py "CodeBlock"))
                 [{| run_text := join NL [rstrip (py "a  "); rstrip (py "# b");
                                          rstrip (py "| c |")];
                     run_font_name := None; run_font_size := None;
                     run_bold := None |}]]
    ∧ in_code st' = false ∧ code_buffer st' = []
    ∧ table_buffer st' = [].
Proof.
  apply (fenced_block_content styled_Document []
           (initial_state styled_Document)
           (py "text") (py "a  ") (py "# b") (py "| c |") []).
  - vm_compute. reflexivity.
  - reflexivity.
  - reflexivity.
  - decide_closed.
  - decide_closed.
  - decide_closed.
  - decide_closed.
  - decide_closed.
  - vm_compute. reflexivity.
  - vm_compute. reflexivity.
  - vm_compute. reflexivity.
Defined.

(** C4 as stated fails twice.  A line inside a fence loses its trailing
    whitespace, so the block is not the three lines joined; and a line
    that holds a control character makes the conversion end with a
    [ValueError], so that no block is written at all. *)
Lemma fenced_lines_are_not_verbatim :
  (convert_lines styled_Document trailing_space_lines
   = Ok {| styles := styles styled_Document;
           body := [Paragraph (Some (py "CodeBlock"))
                      [{| run_text := join NL [py "a"; py "# b"; py "| c |"];
                          run_font_name := None; run_font_size := None;
                          run_bold := None |}]] |}
   ∧ join NL [py "a"; py "# b"; py "| c |"]
     ≠ join NL [py "a  "; py "# b"; py "| c |"])
  ∧ convert_lines styled_Document control_char_lines
    = Raise (Exn ValueError XML_INCOMPATIBLE).
Proof.
  vm_compute. split; [split; [reflexivity | discriminate] | reflexivity].
Qed.
Lemma CODE_FENCE_match_hash s : CODE_FENCE_match (HASH :: s) = None.
Proof. by destruct s as [| b [| c s]]. Qed.

Lemma HEADING_match_marks n w text :
  (1 ≤ n ≤ 6)%nat → isspace w = true → LF ∉ text →
  HEADING_match (replicate n HASH ++ w :: text)
  = Some (replicate n HASH, lstrip text).
Proof.
  intros Hn Hw Htext. unfold HEADING_match.
  rewrite span_hashes by (simpl; intros [= ->]; discriminate).
  rewrite length_replicate, bool_decide_true by done.
  simpl. rewrite Hw.
  pose proof (span_isspace_lstrip text) as Hs.
  destruct (span isspace text) as [spaces rest]. simpl in Hs. subst rest.
  rewrite dot_star_end_no_lf; [done |].
  intros Hin. apply Htext.
  destruct (lstrip_suffix text) as [k ->]. apply elem_of_app. by right.
Qed.

(** C5, amended: outside a fence, a line of [n] marks ([1 ≤ n ≤ 6]),
    whitespace and a text that is not blank and holds no character that XML
    forbids adds one block at the end of the body, a heading of level
    [min n 4] with the stripped text, once the pending table is flushed. *)
Theorem heading_level_clamped st st' n w rest c :
  in_code st = false → (1 ≤ n ≤ 6)%nat →
  isspace w = true → c ∈ rest → isspace c = false → LF ∉ rest →
  xml_compatible (strip rest) = true →
  flush_table st = Ok st' →
  step st (replicate n HASH ++ w :: rest)
  = Ok {| doc := {| styles := styles (doc st');
                    body := body (doc st')
                            ++ [Heading (strip rest) (Z.min (Z.of_nat n) 4)] |};
          in_code := false; code_lang := code_lang st;
          code_buffer := code_buffer st; table_buffer := [] |}.
Proof.
  intros Hin Hn Hw Hc Hcs Hlf Hxml Hflush.
  assert (rstrip rest ≠ []) as Hrest by eauto using rstrip_nonblank.
  assert (rstrip (replicate n HASH ++ w :: rest)
          = replicate n HASH ++ w :: rstrip rest) as Hline.
  { rewrite rstrip_app_nonblank; by rewrite rstrip_cons_nonblank. }
  unfold step. rewrite Hline.
  set (line := replicate n HASH ++ w :: rstrip rest) in *.
  assert (∃ tl, line = HASH :: tl) as [tl Htl].
  { destruct n as [| n]; [lia |]. by eexists. }
  assert (CODE_FENCE_match line = None) as ->.
  { rewrite Htl. apply CODE_FENCE_match_hash. }
  assert (strip line = line) as ->.
  { unfold strip. rewrite <- Hline, rstrip_idempotent, Hline. by rewrite Htl. }
  rewrite Hin, match_nonempty by (by rewrite Htl).
  subst line.
  rewrite HEADING_match_marks by auto using rstrip_no_lf.
  rewrite Hflush. cbn [bind]. rewrite length_replicate.
  rewrite strip_lstrip, strip_rstrip. unfold add_heading.
  assert ((if (Z.of_nat n <=? 4)%Z then Z.of_nat n else 4%Z)
          = Z.min (Z.of_nat n) 4) as ->.
  { destruct (Z.leb_spec (Z.of_nat n) 4); lia. }
  cbv zeta.
  assert (((0 <=? Z.min (Z.of_nat n) 4) && (Z.min (Z.of_nat n) 4 <=? 9))%Z
          = true) as ->.
  { apply andb_true_iff. split; apply Z.leb_le; lia. }
  rewrite store_text_compatible by exact Hxml. cbn [bind].
  destruct (flush_table_state _ _ Hflush) as (Hic & Hlang & Hbuf & Htb).
  unfold with_doc, add_block. rewrite Hic, Hlang, Hbuf, Htb, Hin. reflexivity.
Qed.

Lemma heading_level_clamped_witness :
  step (initial_state empty_Document)
       (replicate 6 HASH ++ 32%N :: py "Deep  title ")
  = Ok {| doc := {| styles := [];
                    body := [] ++ [Heading (strip (py "Deep  title ")) 4] |};
          in_code := false; code_lang := None; code_buffer := [];
          table_buffer := [] |}
  ∧ strip (py "Deep  title ") = py "Deep  title".
Proof.
  split.
  - apply (heading_level_clamped (initial_state empty_Document)
             (initial_state empty_Document) 6 32%N (py "Deep  title ")
             68%N).
    + reflexivity.
    + lia.
    + reflexivity.
    + decide_closed.
    + reflexivity.
    + decide_closed.
    + vm_compute. reflexivity.
    + reflexivity.
  - vm_compute. reflexivity.
Defined.

(** C5 as stated fails: the line [# a?b], where [?] is the control
    character [U+0001], is matched as a heading, and storing its text makes
    the conversion end with a [ValueError]; no heading is written. *)
Lemma heading_with_control_character :
  HEADING_match control_heading_line
  = Some (py "#", py "a" ++ [SOH] ++ py "b")
  ∧ step (initial_state styled_Document) control_heading_line
    = Raise (Exn ValueError XML_INCOMPATIBLE)
  ∧ convert_lines styled_Document [control_heading_line]
    = Raise (Exn ValueError XML_INCOMPATIBLE).
Proof. vm_compute. split; [reflexivity | split; reflexivity]. Qed.

(** C6: outside a fence and with no table pending, the three sample lines
    leave two rows in the table buffer (the alignment line leaves none) and
    nothing else changes; flushing them adds one block at the end of the
    body, a table with header [A, B] and one body row [1, 2], and this is
    what the conversion of the three lines adds.  Flushing an empty buffer,
    and a table without rows, leave the document as it is. *)
Theorem table_of_three_lines st :
  in_code st = false → table_buffer st = [] →
  run_lines st table_lines
  = Ok {| doc := doc st; in_code := false; code_lang := code_lang st;
          code_buffer := code_buffer st;
          table_buffer := [[py "A"; py "B"]; [py "1"; py "2"]] |}
  ∧ (let! s := run_lines st table_lines in flush_table s)
    = Ok {| doc := {| styles := styles (doc st);
                      body := body (doc st)
                              ++ [Table 2 [[py "A"; py "B"];
                                           [py "1"; py "2"]]] |};
            in_code := false; code_lang := code_lang st;
            code_buffer := code_buffer st; table_buffer := [] |}
  ∧ convert_lines (doc st) table_lines
    = Ok {| styles := styles (doc st);
            body := body (doc st)
                    ++ [Table 2 [[py "A"; py "B"]; [py "1"; py "2"]]] |}
  ∧ step st (py "|---|---|") = Ok st
  ∧ flush_table st = Ok st
  ∧ add_table (doc st) [] = Ok (doc st).
Proof.
  destruct st as [d ic lang cb tb]. cbn [in_code table_buffer doc code_lang
    code_buffer]. intros -> ->.
  split; [| split; [| split; [| split; [| split]]]]; vm_compute; reflexivity.
Qed.

Lemma table_of_three_lines_witness :
  convert_lines empty_Document table_lines
  = Ok {| styles := [];
          body := [Table 2 [[py "A"; py "B"]; [py "1"; py "2"]]] |}.
Proof.
  destruct (table_of_three_lines (initial_state empty_Document)
              eq_refl eq_refl) as (_ & _ & Hconv & _).
  exact Hconv.
Defined.

(** C7: when the markdown file is missing, the script ends with a
    [SystemExit] whose message names the path, hence with a status other
    than zero, and the files are as they were. *)
Theorem missing_source_is_fatal template_styles st_size cwd ROOT
    (w : world Document) :
  files w !! MD_FILE ROOT = None →
  let '(r, w') := convert_md_to_docx template_styles st_size cwd ROOT w in
  r = Raise (Exn SystemExit (py "Markdown file not found: " ++ MD_FILE ROOT))
  ∧ exit_status r ≠ 0%Z
  ∧ stderr_message r = Some (py "Markdown file not found: " ++ MD_FILE ROOT)
  ∧ files w' = files w
  ∧ stdout w'
    = stdout w ++ [ py "[debug] Working directory: " ++ cwd;
                    py "[debug] Expected markdown path: " ++ MD_FILE ROOT;
                    py "[error] Markdown source missing" ].
Proof.
  intros Hmissing. unfold convert_md_to_docx. cbn [print files].
  rewrite Hmissing. cbn [print files stdout exit_status stderr_message exn_str].
  repeat split; [done |]. by rewrite <- !app_assoc.
Qed.

Lemma missing_source_is_fatal_witness :
  let '(r, w') :=
    convert_md_to_docx [] (λ _, 0%Z) (py "/home/user") (py "/repo/presentations")
      (@empty_world Document) in
  r = Raise (Exn SystemExit
               (py "Markdown file not found: "
                ++ MD_FILE (py "/repo/presentations")))
  ∧ exit_status r ≠ 0%Z
  ∧ stderr_message r
    = Some (py "Markdown file not found: "
            ++ MD_FILE (py "/repo/presentations"))
  ∧ files w' = files (@empty_world Document)
  ∧ stdout w'
    = stdout (@empty_world Document)
      ++ [ py "[debug] Working directory: " ++ py "/home/user";
           py "[debug] Expected markdown path: "
           ++ MD_FILE (py "/repo/presentations");
           py "[error] Markdown source missing" ].
Proof.
  apply (missing_source_is_fatal [] (λ _, 0%Z) (py "/home/user")
           (py "/repo/presentations") empty_world).
  reflexivity.
Defined.

(** ** Tables *)

Lemma assign_cells_fits row : ∀ i cells,
  (i + length row ≤ length cells)%nat → storable_row row →
  assign_cells i row cells
  = Ok (take i cells ++ (strip <$> row) ++ drop (i + length row) cells).
Proof.
  induction row as [| col row IH]; intros i cells Hlen Hrow; simpl in *.
  - by rewrite Nat.add_0_r, take_drop.
  - apply Forall_cons in Hrow as [Hcol Hrow].
    rewrite decide_True by lia.
    rewrite store_text_compatible by exact Hcol. cbn [bind].
    rewrite IH by (rewrite ?length_insert; (lia || done)).
    rewrite (take_S_r _ _ (strip col))
      by (apply list_lookup_insert_eq; lia).
    rewrite take_insert_ge, drop_insert_lt by lia.
    rewrite <- app_assoc. simpl.
    by replace (i + S (length row))%nat with (S (i + length row)) by lia.
Qed.

Lemma assign_cells_overflow row : ∀ i cells,
  (i ≤ length cells < i + length row)%nat → storable_row row →
  assign_cells i row cells
  = Raise (Exn IndexError (py "tuple index out of range")).
Proof.
  induction row as [| col row IH]; intros i cells Hlen Hrow; simpl in *;
    [lia |].
  apply Forall_cons in Hrow as [Hcol Hrow].
  destruct (decide (i < length cells)%nat); [| done].
  rewrite store_text_compatible by exact Hcol. cbn [bind].
  apply IH; [| done]. rewrite length_insert. lia.
Qed.

Lemma fill_row_fits cols row :
  (length row ≤ cols)%nat → storable_row row →
  fill_row cols row = Ok (padded cols row).
Proof.
  intros Hlen Hrow. unfold fill_row, padded.
  rewrite assign_cells_fits by (rewrite ?length_replicate; simpl; (lia || done)).
  simpl. by rewrite drop_replicate.
Qed.

Lemma fill_row_overflow cols row :
  (cols < length row)%nat → storable_row row →
  fill_row cols row = Raise (Exn IndexError (py "tuple index out of range")).
Proof.
  intros Hlen Hrow. apply assign_cells_overflow; [| done].
  rewrite length_replicate. lia.
Qed.

Lemma fill_rows_fit cols rows :
  Forall (λ r, (length r ≤ cols)%nat) rows → Forall storable_row rows →
  fill_rows cols rows = Ok (padded cols <$> rows).
Proof.
  induction 1 as [| r rows Hr _ IH]; intros Hrows; simpl; [done |].
  apply Forall_cons in Hrows as [Hrow Hrows].
  by rewrite fill_row_fits, IH.
Qed.

Lemma fill_rows_overflow cols rows long :
  Forall (λ r, (length r ≤ cols)%nat) rows → (cols < length long)%nat →
  Forall storable_row rows → storable_row long →
  fill_rows cols (rows ++ [long])
  = Raise (Exn IndexError (py "tuple index out of range")).
Proof.
  intros Hfit Hlong Hrows Hrow.
  induction Hfit as [| r rows Hr _ IH]; simpl.
  - by rewrite fill_row_overflow.
  - apply Forall_cons in Hrows as [Hr' Hrows].
    by rewrite fill_row_fits, IH.
Qed.

Lemma length_padded cols row :
  (length row ≤ cols)%nat → length (padded cols row) = cols.
Proof.
  intros Hlen. unfold padded.
  rewrite length_app, length_fmap, length_replicate. lia.
Qed.

(** A table whose rows fit and can be stored is added as one block. *)
Lemma add_table_fits d header body_rows :
  Forall (λ r, (length r ≤ length header)%nat) body_rows →
  Forall storable_row (header :: body_rows) →
  add_table d (header :: body_rows)
  = Ok {| styles := styles d;
          body := body d
                  ++ [Table (length header)
                        (padded (length header) <$> header :: body_rows)] |}.
Proof.
  intros Hfit [Hheader Hrows]%Forall_cons. unfold add_table.
  by rewrite fill_row_fits, fill_rows_fit.
Qed.

(** C10, amended: the table has as many columns as its first row.  When
    no body row is longer than the first row and no cell holds a character
    that XML forbids, [add_table] succeeds and adds one table whose rows all
    have that width, short rows being completed with empty cells.  A body
    row that is longer makes the cell index leave the row, and the
    conversion of such a document ends with an [IndexError]. *)
Theorem add_table_fixed_width d header body_rows long :
  Forall (λ r, (length r ≤ length header)%nat) body_rows →
  (length header < length long)%nat →
  Forall storable_row (header :: body_rows) → storable_row long →
  add_table d (header :: body_rows)
  = Ok {| styles := styles d;
          body := body d
                  ++ [Table (length header)
                        (padded (length header) <$> header :: body_rows)] |}
  ∧ Forall (λ cells, length cells = length header)
           (padded (length header) <$> header :: body_rows)
  ∧ add_table d (header :: body_rows ++ [long])
    = Raise (Exn IndexError (py "tuple index out of range"))
  ∧ convert_lines empty_Document ragged_lines
    = Raise (Exn IndexError (py "tuple index out of range")).
Proof.
  intros Hfit Hlong Hrows Hrow. split; [| split; [| split]].
  - by apply add_table_fits.
  - apply Forall_fmap, Forall_cons. split; [by apply length_padded |].
    eapply Forall_impl; [done |]. intros r Hr. by apply length_padded.
  - apply Forall_cons in Hrows as [Hheader Hrows]. unfold add_table.
    by rewrite fill_row_fits, fill_rows_overflow.
  - vm_compute. reflexivity.
Qed.

Lemma add_table_fixed_width_witness :
  add_table empty_Document [[py " A "; py "B"]; [py "1"]]
  = Ok {| styles := [];
          body := [Table 2 [[py "A"; py "B"]; [py "1"; []]]] |}
  ∧ add_table empty_Document [[py " A "; py "B"]; [py "1"]; [[]; []; []]]
    = Raise (Exn IndexError (py "tuple index out of range")).
Proof.
  destruct (add_table_fixed_width empty_Document [py " A "; py "B"]
              [[py "1"]] [[]; []; []]) as (Hfit & _ & Hlong & _).
  - repeat constructor.
  - simpl. lia.
  - repeat (constructor; [repeat (constructor; [vm_compute; reflexivity |]);
                          constructor |]). constructor.
  - repeat (constructor; [vm_compute; reflexivity |]). constructor.
  - split.
    + rewrite Hfit. vm_compute. reflexivity.
    + exact Hlong.
Defined.

(** C10 as stated fails: in this table every body row has as many cells
    as the first row, and one cell holds the control character [U+0001];
    storing it raises a [ValueError], so the table is not rendered and the
    conversion of its lines ends with that error. *)
Lemma table_cell_with_control_character :
  Forall (λ r, (length r ≤ 2)%nat) control_table_rows
  ∧ add_table styled_Document control_table_rows
    = Raise (Exn ValueError XML_INCOMPATIBLE)
  ∧ convert_lines styled_Document control_table_lines
    = Raise (Exn ValueError XML_INCOMPATIBLE).
Proof.
  split; [repeat constructor |]. vm_compute. split; reflexivity.
Qed.

(** ** The slide deck *)

Lemma set_text_head text :
  ∃ rest, set_text text = new_paragraph (default [] (head (split LF text)))
                          :: rest.
Proof.
  unfold set_text. pose proof (split_nonempty LF text) as Hne.
  destruct (split LF text) as [| first rest]; [done |]. by eexists.
Qed.

(** C9 on the code: the title of a two-column slide gets its size and its
    weight, and no colour; the three other operations set the colour
    [RGB(0, 51, 102)].  Slide 6 of the deck is the first such slide. *)
Theorem two_column_title_has_no_color prs title subtitle items left_items
    right_items layout_index code language :
  title_font <$> last (slides (create_two_column_slide prs title left_items
                                                       right_items))
  = Some (Some {| font_name := None; font_size := Some (Pt 32);
                  font_bold := Some true; font_color := None |})
  ∧ title_font <$> last (slides (create_title_slide prs title subtitle))
    = Some (Some (styled_title 44))
  ∧ title_font <$> last (slides (create_content_slide prs title items
                                                      layout_index))
    = Some (Some (styled_title 32))
  ∧ title_font <$> last (slides (create_code_slide prs title code language))
    = Some (Some (styled_title 32))
  ∧ title_font <$> slides (run_statements main_statements empty_deck) !! 5%nat
    = Some (Some {| font_name := None; font_size := Some (Pt 32);
                    font_bold := Some true; font_color := None |}).
Proof.
  unfold create_two_column_slide, create_title_slide, create_content_slide,
    create_code_slide, add_slide.
  cbn [slides]. rewrite !last_snoc.
  destruct (set_text_head title) as [rest ->].
  repeat split; by vm_compute.
Qed.




(** * Further properties *)

(** ** The weather tools, beyond the error cases *)

Section WeatherMore.

Variable repr_str : str → str.
Variable capitalize : str → str.

Lemma detailed_report_well_formed location data f :
  well_formed_detailed data f →
  detailed_report repr_str capitalize location (Ok data)
  = Ok (detailed_text repr_str capitalize location f).
Proof.
  intros [(d & w0 & others & m & w & c & -> & Hw & Hdesc & Hm & Htemp
           & Hfeels & Hmin & Hmax & Hpres & Hhum & Hwind & Hspeed & Hdeg
           & Hclouds & Hall & Hvis)].
  unfold detailed_report. simpl.
  rewrite Hw, Hm, Hwind, Hclouds. simpl.
  rewrite Hdesc, Htemp, Hfeels, Hmin, Hmax, Hpres, Hhum, Hspeed, Hall. simpl.
  rewrite Hdeg, Hvis.
  f_equal. unfold detailed_text, or_not_available, join.
  by rewrite <- !app_assoc.
Qed.

(** X1: on a 200 response whose body holds the fields, the detailed tool
    returns the seventeen-line report; a missing wind direction or
    visibility shows as N/A. *)
Theorem detailed_tool_report environ http_get location api_key resp data f :
  environ !! API_KEY_VAR = Some api_key → api_key ≠ [] →
  http_get (weather_request location api_key) = Ok resp →
  status resp = 200%Z → body_json resp = Ok data →
  well_formed_detailed data f →
  get_real_weather_detailed repr_str capitalize environ http_get location
  = (Ok (detailed_text repr_str capitalize location f),
     [weather_request location api_key]).
Proof.
  intros Hkey Hne Hget Hst Hbody Hwf.
  change (run_tool repr_str capitalize Detailed environ http_get location
          = (Ok (detailed_text repr_str capitalize location f),
             [weather_request location api_key])).
  rewrite (run_tool_with_key _ _ _ _ _ _ _ Hkey Hne), Hget.
  cbn [bind report_of]. unfold status_branches.
  rewrite Hst, Hbody. cbn [Z.eqb Pos.eqb].
  by rewrite (detailed_report_well_formed _ _ _ Hwf).
Qed.

(** X2: unless a response has status 200, the two tools answer alike:
    the same text, the same request. *)
Theorem tools_agree_off_200 environ http_get location :
  (∀ api_key resp,
     environ !! API_KEY_VAR = Some api_key →
     http_get (weather_request location api_key) = Ok resp →
     status resp ≠ 200%Z) →
  get_real_weather repr_str environ http_get location
  = get_real_weather_detailed repr_str capitalize environ http_get location.
Proof.
  intros Hno.
  destruct (environ !! API_KEY_VAR) as [[| c k] |] eqn:Hkey.
  - unfold get_real_weather, get_real_weather_detailed. by rewrite Hkey.
  - assert (c :: k ≠ []) as Hne by done.
    change (run_tool repr_str capitalize Basic environ http_get location
            = run_tool repr_str capitalize Detailed environ http_get location).
    rewrite !(run_tool_with_key _ _ _ _ _ _ _ Hkey Hne).
    destruct (http_get (weather_request location (c :: k))) as [resp |] eqn:Hget;
      [| done].
    cbn [bind]. unfold status_branches.
    specialize (Hno _ _ eq_refl Hget). apply Z.eqb_neq in Hno.
    by rewrite Hno.
  - unfold get_real_weather, get_real_weather_detailed. by rewrite Hkey.
Qed.

Lemma attempt_raised t http_get location req e :
  raised_before_report http_get req e →
  (let! resp := http_get req in
   status_branches location resp (report_of repr_str capitalize t))
  = Raise e.
Proof.
  intros [Hget | resp Hget Hst Hbody]; rewrite Hget; [done |].
  cbn [bind]. unfold status_branches. rewrite Hst, Hbody. by destruct t.
Qed.

(** X3: an exception that is no instance of [Exception] (a cancellation,
    a keyboard interrupt) is not turned into a text: it leaves the tool. *)
Theorem interruption_propagates t environ http_get location api_key e :
  environ !! API_KEY_VAR = Some api_key → api_key ≠ [] →
  raised_before_report http_get (weather_request location api_key) e →
  is_exception (exn_cls e) = false →
  run_tool repr_str capitalize t environ http_get location
  = (Raise e, [weather_request location api_key]).
Proof.
  intros Hkey Hne Hraised He.
  rewrite (run_tool_with_key _ _ _ _ _ _ _ Hkey Hne).
  rewrite (attempt_raised _ _ _ _ _ Hraised). unfold except_clauses.
  destruct (exn_cls e); try discriminate; done.
Qed.

(** X4: the text for an exception names its kind and ends with its
    message: a network error for [aiohttp.ClientError], also when reading
    the body raises it, an unexpected error for any other [Exception]. *)
Theorem error_text_by_class t environ http_get location api_key e :
  environ !! API_KEY_VAR = Some api_key → api_key ≠ [] →
  raised_before_report http_get (weather_request location api_key) e →
  is_exception (exn_cls e) = true →
  run_tool repr_str capitalize t environ http_get location
  = (Ok ((if is_client_error (exn_cls e)
          then py "Error: Network error occurred: "
          else py "Error: Unexpected error occurred: ") ++ exn_str e),
     [weather_request location api_key]).
Proof.
  intros Hkey Hne Hraised He.
  rewrite (run_tool_with_key _ _ _ _ _ _ _ Hkey Hne).
  rewrite (attempt_raised _ _ _ _ _ Hraised). unfold except_clauses.
  rewrite He. by destruct (is_client_error (exn_cls e)).
Qed.

(** X5: when the body of a 200 response is an object without the key
    [weather], both tools name that key in their text. *)
Theorem missing_field_is_named t environ http_get location api_key resp d :
  environ !! API_KEY_VAR = Some api_key → api_key ≠ [] →
  http_get (weather_request location api_key) = Ok resp →
  status resp = 200%Z → body_json resp = Ok (JDict d) →
  dict_lookup (py "weather") d = None →
  run_tool repr_str capitalize t environ http_get location
  = (Ok (py "Error: Unexpected error occurred: " ++ repr_str (py "weather")),
     [weather_request location api_key]).
Proof.
  intros Hkey Hne Hget Hst Hbody Hnone.
  rewrite (run_tool_with_key _ _ _ _ _ _ _ Hkey Hne), Hget.
  cbn [bind]. unfold status_branches. rewrite Hst, Hbody. cbn [Z.eqb Pos.eqb].
  destruct t; cbn [report_of]; unfold basic_report, detailed_report;
    cbn [bind getitem]; by rewrite Hnone.
Qed.

Lemma report_has_header t location body text :
  report_of repr_str capitalize t location body = Ok text →
  ∃ rest, text = match t with
                 | Basic => py "Weather in "
                 | Detailed => py "Detailed Weather Report for "
                 end ++ rest.
Proof.
  destruct t; cbn [report_of]; unfold basic_report, detailed_report;
    repeat match goal with
           | |- bind ?r _ = Ok _ → _ => destruct r; cbn [bind]; [| done]
           end;
    intros [= <-]; by eexists.
Qed.

Lemma report_not_error t location body text :
  report_of repr_str capitalize t location body = Ok text →
  ¬ error_indicator text.
Proof.
  intros Hrep [k Hk]. apply report_has_header in Hrep as [rest ->].
  destruct t; vm_compute in Hk; discriminate.
Qed.

Lemma fixed_texts_are_errors location code :
  error_indicator NOT_SET_MESSAGE
  ∧ error_indicator
      (py "Error: Invalid API key. Please check your OPENWEATHERMAP_API_KEY.")
  ∧ error_indicator
      (py "Error: City '" ++ location
       ++ py "' not found. Try using format like 'Seattle' or 'London,UK'.")
  ∧ error_indicator
      (py "Error: Could not fetch weather for " ++ location
       ++ py " (Status: " ++ str_of_Z code ++ py ")").
Proof.
  unfold error_indicator, NOT_SET_MESSAGE.
  split; [| split; [| split]]; eexists; vm_compute; reflexivity.
Qed.

(** X6: the marker tells failures from reports.  A text that a tool
    returns opens with [Error:] in every case but one: the response had
    status 200 and the text is the report built from its body. *)
Theorem error_marker_is_exact t environ http_get location text requests :
  run_tool repr_str capitalize t environ http_get location
  = (Ok text, requests) →
  error_indicator text
  ↔ ¬ ∃ api_key resp,
        environ !! API_KEY_VAR = Some api_key
        ∧ http_get (weather_request location api_key) = Ok resp
        ∧ status resp = 200%Z
        ∧ report_of repr_str capitalize t location (body_json resp) = Ok text.
Proof.
  intros Hrun.
  destruct (fixed_texts_are_errors location 0) as (Hnot_set & _).
  destruct (environ !! API_KEY_VAR) as [[| c k] |] eqn:Hkey.
  - assert (text = NOT_SET_MESSAGE) as ->.
    { destruct t; cbn [run_tool] in Hrun;
        unfold get_real_weather, get_real_weather_detailed in Hrun;
        rewrite Hkey in Hrun; by injection Hrun as <- _. }
    split; [| done]. intros _ (key & resp & [= <-] & _ & _ & Hrep).
    by apply report_not_error in Hrep.
  - assert (c :: k ≠ []) as Hne by done.
    rewrite (run_tool_with_key _ _ _ _ _ _ _ Hkey Hne) in Hrun.
    injection Hrun as Hrun _.
    destruct (http_get (weather_request location (c :: k)))
      as [resp | e] eqn:Hget.
    + cbn [bind] in Hrun. unfold status_branches in Hrun.
      destruct (status resp =? 200)%Z eqn:Hst.
      * apply Z.eqb_eq in Hst.
        destruct (report_of repr_str capitalize t location (body_json resp))
          as [r | e] eqn:Hrep.
        -- injection Hrun as <-. split.
           ++ intros Herr. by apply report_not_error in Hrep.
           ++ intros Hno. destruct Hno. by exists (c :: k), resp.
        -- split; [| intros _].
           ++ intros _ (key & resp' & [= <-] & Hget' & _ & Hrep').
              rewrite Hget in Hget'. injection Hget' as <-. congruence.
           ++ unfold except_clauses in Hrun.
              destruct (is_client_error (exn_cls e));
                [injection Hrun as <-; apply error_indicator_network |].
              destruct (is_exception (exn_cls e)); [| done].
              injection Hrun as <-. apply error_indicator_unexpected.
      * split.
        -- intros _ (key & resp' & [= <-] & Hget' & Hst' & _).
           rewrite Hget in Hget'. injection Hget' as <-.
           apply Z.eqb_neq in Hst. done.
        -- intros _.
           destruct (fixed_texts_are_errors location (status resp))
             as (_ & H401 & H404 & Hother).
           destruct (status resp =? 401)%Z; [by injection Hrun as <- |].
           destruct (status resp =? 404)%Z; by injection Hrun as <-.
    + split.
      * intros _ (key & resp' & [= <-] & Hget' & _). congruence.
      * intros _. cbn [bind] in Hrun. unfold except_clauses in Hrun.
        destruct (is_client_error (exn_cls e));
          [injection Hrun as <-; apply error_indicator_network |].
        destruct (is_exception (exn_cls e)); [| done].
        injection Hrun as <-. apply error_indicator_unexpected.
  - assert (text = NOT_SET_MESSAGE) as ->.
    { destruct t; cbn [run_tool] in Hrun;
        unfold get_real_weather, get_real_weather_detailed in Hrun;
        rewrite Hkey in Hrun; by injection Hrun as <- _. }
    split; [| done]. intros _ (key & resp & [=] & _).
Qed.

End WeatherMore.

Lemma sample_detailed_body_well_formed :
  well_formed_detailed sample_detailed_body sample_detailed_fields.
Proof.
  split. eexists _, _, _, _, _, _.
  repeat (split; [reflexivity |]). reflexivity.
Defined.

Lemma detailed_tool_report_witness :
  get_real_weather_detailed simple_repr ascii_capitalize sample_environ
    (respond 200 (Ok sample_detailed_body)) (py "Seattle")
  = (Ok (join NL
           [ py "Detailed Weather Report for Seattle:";
             py "━━━━━━━━━━━━━━━━━━━━━━━━━━━━━━━━";
             py "Conditions: Clear sky";
             [];
             py "Temperature:";
             py "  • Current: 15.5°C (feels like 14.2°C)";
             py "  • Min/Max: 12°C / 18°C";
             [];
             py "Atmospheric Conditions:";
             py "  • Pressure: 1013 hPa";
             py "  • Humidity: 65%";
             py "  • Cloudiness: 0%";
             py "  • Visibility: N/A meters";
             [];
             py "Wind:";
             py "  • Speed: 3.1 m/s";
             py "  • Direction: N/A°" ]),
     [weather_request (py "Seattle") (py "k3y")]).
Proof.
  assert (detailed_text simple_repr ascii_capitalize (py "Seattle")
            sample_detailed_fields
          = join NL
              [ py "Detailed Weather Report for Seattle:";
                py "━━━━━━━━━━━━━━━━━━━━━━━━━━━━━━━━";
                py "Conditions: Clear sky";
                [];
                py "Temperature:";
                py "  • Current: 15.5°C (feels like 14.2°C)";
                py "  • Min/Max: 12°C / 18°C";
                [];
                py "Atmospheric Conditions:";
                py "  • Pressure: 1013 hPa";
                py "  • Humidity: 65%";
                py "  • Cloudiness: 0%";
                py "  • Visibility: N/A meters";
                [];
                py "Wind:";
                py "  • Speed: 3.1 m/s";
                py "  • Direction: N/A°" ]) as <- by (vm_compute; reflexivity).
  apply (detailed_tool_report simple_repr ascii_capitalize sample_environ
           (respond 200 (Ok sample_detailed_body)) (py "Seattle") (py "k3y")
           {| status := 200; body_json := Ok sample_detailed_body |}
           sample_detailed_body sample_detailed_fields).
  - reflexivity.
  - discriminate.
  - reflexivity.
  - reflexivity.
  - reflexivity.
  - exact sample_detailed_body_well_formed.
Defined.

Lemma tools_agree_off_200_witness :
  get_real_weather simple_repr sample_environ (respond 404 (Ok JNull))
    (py "Atlantis")
  = get_real_weather_detailed simple_repr ascii_capitalize sample_environ
      (respond 404 (Ok JNull)) (py "Atlantis").
Proof.
  apply (tools_agree_off_200 simple_repr ascii_capitalize sample_environ
           (respond 404 (Ok JNull)) (py "Atlantis")).
  intros api_key resp _ [= <-]. simpl. discriminate.
Defined.

Lemma interruption_propagates_witness :
  run_tool simple_repr ascii_capitalize Basic sample_environ interrupted
           (py "Seattle")
  = (Raise (Exn OtherBaseException (py "cancelled")),
     [weather_request (py "Seattle") (py "k3y")]).
Proof.
  apply (interruption_propagates simple_repr ascii_capitalize Basic
           sample_environ interrupted (py "Seattle") (py "k3y")).
  - reflexivity.
  - discriminate.
  - apply raised_by_transport. reflexivity.
  - reflexivity.
Defined.

Lemma error_text_by_class_witness :
  run_tool simple_repr ascii_capitalize Detailed sample_environ unreachable
           (py "Seattle")
  = (Ok ((if is_client_error ClientError
          then py "Error: Network error occurred: "
          else py "Error: Unexpected error occurred: ")
         ++ py "Cannot connect to host"),
     [weather_request (py "Seattle") (py "k3y")]).
Proof.
  apply (error_text_by_class simple_repr ascii_capitalize Detailed
           sample_environ unreachable (py "Seattle") (py "k3y")
           (Exn ClientError (py "Cannot connect to host"))).
  - reflexivity.
  - discriminate.
  - apply raised_by_transport. reflexivity.
  - reflexivity.
Defined.

Lemma missing_field_is_named_witness :
  run_tool simple_repr ascii_capitalize Basic sample_environ
           (respond 200 (Ok (JDict []))) (py "Seattle")
  = (Ok (py "Error: Unexpected error occurred: " ++ simple_repr (py "weather")),
     [weather_request (py "Seattle") (py "k3y")]).
Proof.
  apply (missing_field_is_named simple_repr ascii_capitalize Basic
           sample_environ (respond 200 (Ok (JDict []))) (py "Seattle")
           (py "k3y") {| status := 200; body_json := Ok (JDict []) |} []).
  - reflexivity.
  - discriminate.
  - reflexivity.
  - reflexivity.
  - reflexivity.
  - reflexivity.
Defined.

Lemma error_marker_is_exact_witness :
  error_indicator (py "Error: Could not fetch weather for Seattle (Status: 500)")
  ↔ ¬ ∃ api_key resp,
        sample_environ !! API_KEY_VAR = Some api_key
        ∧ respond 500 (Ok JNull) (weather_request (py "Seattle") api_key)
          = Ok resp
        ∧ status resp = 200%Z
        ∧ report_of simple_repr ascii_capitalize Basic (py "Seattle")
                    (body_json resp)
          = Ok (py "Error: Could not fetch weather for Seattle (Status: 500)").
Proof.
  apply (error_marker_is_exact simple_repr ascii_capitalize Basic
           sample_environ (respond 500 (Ok JNull)) (py "Seattle")
           (py "Error: Could not fetch weather for Seattle (Status: 500)")
           [weather_request (py "Seattle") (py "k3y")]).
  vm_compute. reflexivity.
Defined.

(** ** Splitting and joining *)

Lemma split_no_sep sep s : sep ∉ s → split sep s = [s].
Proof.
  induction s as [| c s IH]; [done |]. intros Hs.
  apply not_elem_of_cons in Hs as [Hc Hs]. simpl.
  assert ((c =? sep)%N = false) as -> by (apply N.eqb_neq; congruence).
  by rewrite IH.
Qed.

Lemma split_app_sep sep a rest :
  sep ∉ a → split sep (a ++ sep :: rest) = a :: split sep rest.
Proof.
  induction a as [| c a IH]; intros Ha; simpl.
  - by rewrite N.eqb_refl.
  - apply not_elem_of_cons in Ha as [Hc Ha].
    assert ((c =? sep)%N = false) as -> by (apply N.eqb_neq; congruence).
    by rewrite IH.
Qed.

Lemma split_join sep cells :
  cells ≠ [] → Forall (λ c, sep ∉ c) cells →
  split sep (join [sep] cells) = cells.
Proof.
  intros Hne Hcells. induction Hcells as [| c cells Hc Hcells IH]; [done |].
  destruct cells as [| c' cells]; simpl.
  - by apply split_no_sep.
  - rewrite split_app_sep by done. f_equal. by apply IH.
Qed.

Lemma join_split sep s : join [sep] (split sep s) = s.
Proof.
  induction s as [| c s IH]; [done |]. simpl.
  destruct (c =? sep)%N eqn:Hc.
  - apply N.eqb_eq in Hc as ->.
    pose proof (split_nonempty sep s) as Hne.
    destruct (split sep s) as [| h t]; [done |]. simpl in *. by rewrite IH.
  - pose proof (split_nonempty sep s) as Hne.
    destruct (split sep s) as [| h t]; [done |].
    destruct t; simpl in *; by rewrite <- IH.
Qed.

Lemma split_pieces sep s :
  Forall (λ l, (sep ∉ l) ∧ (l ⊆ s)) (split sep s).
Proof.
  induction s as [| c s IH]; simpl.
  - constructor; [| constructor]. split; [apply not_elem_of_nil | done].
  - destruct (c =? sep)%N eqn:Hc.
    + constructor; [split; [apply not_elem_of_nil | set_solver] |].
      eapply Forall_impl; [done |]. set_solver.
    + apply N.eqb_neq in Hc. pose proof (split_nonempty sep s) as Hne.
      destruct (split sep s) as [| h t]; [done |].
      apply Forall_cons in IH as [[Hh Hsub] IH]. constructor.
      * split; [| set_solver]. apply not_elem_of_cons. split; [congruence | done].
      * eapply Forall_impl; [done |]. set_solver.
Qed.

Lemma split_snoc_sep sep s : split sep (s ++ [sep]) = split sep s ++ [[]].
Proof.
  induction s as [| c s IH]; simpl.
  - by rewrite N.eqb_refl.
  - destruct (c =? sep)%N; rewrite IH; [done |].
    pose proof (split_nonempty sep s) as Hne.
    by destruct (split sep s).
Qed.

(** ** Reading the lines *)

Lemma translate_newlines_fuel n : ∀ s,
  (length s ≤ n)%nat →
  (CR ∉ translate_newlines s) ∧ (CR ∉ s → translate_newlines s = s).
Proof.
  induction n as [| n IH]; intros s Hlen.
  - destruct s; [| simpl in Hlen; lia]. split; [apply not_elem_of_nil | done].
  - destruct s as [| c s]; [split; [apply not_elem_of_nil | done] |].
    simpl in Hlen. simpl.
    destruct (c =? CR)%N eqn:Hc.
    + apply N.eqb_eq in Hc as ->. split.
      * apply not_elem_of_cons. split; [done |].
        destruct s as [| d s]; [apply not_elem_of_nil |].
        destruct (d =? LF)%N; apply IH; simpl in *; lia.
      * intros Hno. destruct Hno. by left.
    + apply N.eqb_neq in Hc. split.
      * apply not_elem_of_cons. split; [congruence |]. apply IH. lia.
      * intros Hno. apply not_elem_of_cons in Hno as [_ Hno].
        f_equal. apply IH; [lia | done].
Qed.

Lemma iter_lines_pieces text :
  Forall (λ l, (LF ∉ l) ∧ (l ⊆ translate_newlines text)) (iter_lines text).
Proof.
  unfold iter_lines.
  pose proof (split_pieces LF (translate_newlines text)) as Hall.
  destruct (last _) as [[| c l] |]; try done.
  apply Forall_forall. intros l Hl.
  eapply Forall_forall in Hall; [done |].
  destruct (split LF (translate_newlines text)) as [| h t] using rev_ind;
    [done |].
  rewrite removelast_last in Hl. apply elem_of_app. by left.
Qed.

(** X7: no line that [iter_lines] yields holds a line feed or a carriage
    return.  A text without carriage return that is followed by a line
    feed is read as its pieces between line feeds, so joining the lines
    gives the text back. *)
Theorem iter_lines_round_trip text line :
  (line ∈ iter_lines text → (LF ∉ line) ∧ (CR ∉ line))
  ∧ (CR ∉ text →
     iter_lines (text ++ NL) = split LF text
     ∧ join NL (iter_lines (text ++ NL)) = text).
Proof.
  split.
  - intros Hin.
    pose proof (iter_lines_pieces text) as Hall.
    eapply Forall_forall in Hall as [Hlf Hsub]; [| done].
    split; [done |]. intros Hcr. apply Hsub in Hcr.
    by apply (translate_newlines_fuel (length text) text).
  - intros Hcr.
    assert (iter_lines (text ++ NL) = split LF text) as Heq.
    { assert (translate_newlines (text ++ NL) = text ++ NL) as Htr.
      { apply (translate_newlines_fuel (length (text ++ NL))); [done |].
        intros Hin. apply elem_of_app in Hin as [Hin | Hin]; [done |].
        apply list_elem_of_singleton in Hin. discriminate. }
      unfold iter_lines. rewrite Htr. unfold NL.
      rewrite split_snoc_sep, last_snoc. by rewrite removelast_last. }
    split; [done |]. rewrite Heq. apply join_split.
Qed.

Lemma iter_lines_round_trip_witness :
  iter_lines (py "# T" ++ NL ++ py "x" ++ NL) = split LF (py "# T" ++ NL ++ py "x")
  ∧ join NL (iter_lines (py "# T" ++ NL ++ py "x" ++ NL))
    = py "# T" ++ NL ++ py "x".
Proof.
  destruct (iter_lines_round_trip (py "# T" ++ NL ++ py "x") []) as [_ Hrt].
  rewrite <- !app_assoc in Hrt. apply Hrt. decide_closed.
Defined.

(** ** Styles *)

Lemma has_style_add name d s :
  has_style name (add_style d s)
  = has_style name d || bool_decide (style_name s = name).
Proof.
  unfold has_style, add_style. simpl. rewrite fmap_app. simpl.
  rewrite <- bool_decide_or. apply bool_decide_ext.
  rewrite elem_of_app, list_elem_of_singleton. naive_solver.
Qed.

Lemma style_names_differ : py "CodeBlock" ≠ py "TableHeader".
Proof. vm_compute. discriminate. Qed.

(** X8: [ensure_mono_style] leaves the body and the styles already there
    as they are, adds what is missing at the end, so that both names are
    known afterwards; applied again it changes nothing. *)
Theorem ensure_mono_style_idempotent d :
  body (ensure_mono_style d) = body d
  ∧ styles d `prefix_of` styles (ensure_mono_style d)
  ∧ has_style (py "CodeBlock") (ensure_mono_style d) = true
  ∧ has_style (py "TableHeader") (ensure_mono_style d) = true
  ∧ ensure_mono_style (ensure_mono_style d) = ensure_mono_style d.
Proof.
  assert (bool_decide (py "CodeBlock" = py "TableHeader") = false) as Hct
    by (apply bool_decide_eq_false, style_names_differ).
  assert (bool_decide (py "TableHeader" = py "CodeBlock") = false) as Htc
    by (apply bool_decide_eq_false, not_eq_sym, style_names_differ).
  unfold ensure_mono_style.
  destruct (has_style (py "CodeBlock") d) eqn:Hc;
    destruct (has_style (py "TableHeader") d) eqn:Ht; simpl;
    rewrite ?has_style_add, ?Hc, ?Ht; simpl;
    rewrite ?Hct, ?Htc, ?bool_decide_true by done; simpl;
    rewrite ?has_style_add, ?Hc, ?Ht; simpl;
    rewrite ?Hct, ?Htc, ?bool_decide_true by done; simpl;
    rewrite ?has_style_add, ?Hc, ?Ht; simpl;
    rewrite ?Hct, ?Htc, ?bool_decide_true by done; simpl;
    repeat split; try done;
    try (by apply prefix_app_r);
    try (rewrite <- app_assoc; by apply prefix_app_r).
Qed.

(** ** Inline code *)

Lemma span_app p s : (span p s).1 ++ (span p s).2 = s.
Proof.
  induction s as [| c s IH]; [done |]. simpl.
  destruct (p c); [| done]. destruct (span p s). simpl in *. by rewrite IH.
Qed.

Lemma span_stop p s a b r : span p s = (a, b :: r) → p b = false.
Proof.
  revert a. induction s as [| c s IH]; intros a; simpl; [done |].
  destruct (p c) eqn:Hc.
  - destruct (span p s) as [a' b'] eqn:Hs. intros [= <- ->]. by eapply IH.
  - by intros [= <- <- <-].
Qed.

Lemma span_all p s : Forall (λ c, p c = true) (span p s).1.
Proof.
  induction s as [| c s IH]; simpl; [constructor |].
  destruct (p c) eqn:Hc; [| constructor].
  destruct (span p s). simpl in *. by constructor.
Qed.

Lemma render_plain_runs pending :
  concat (render_run <$> plain_runs pending) = pending.
Proof. destruct pending; [done |]. simpl. by rewrite app_nil_r. Qed.

Lemma plain_runs_shape pending : Forall run_shape (plain_runs pending).
Proof.
  destruct pending as [| c p]; [constructor |].
  simpl. constructor; [| constructor]. split; [done | by left].
Qed.

Lemma scan_inline_spec fuel : ∀ pending s,
  (length s ≤ fuel)%nat →
  concat (render_run <$> scan_inline fuel pending s) = pending ++ s
  ∧ Forall run_shape (scan_inline fuel pending s).
Proof.
  induction fuel as [| fuel IH]; intros pending s Hlen.
  - destruct s; [| simpl in Hlen; lia]. simpl.
    rewrite app_nil_r. split; [apply render_plain_runs | apply plain_runs_shape].
  - destruct s as [| c rest].
    { simpl. rewrite app_nil_r.
      split; [apply render_plain_runs | apply plain_runs_shape]. }
    simpl in Hlen.
    assert (concat (render_run <$> scan_inline fuel (pending ++ [c]) rest)
            = pending ++ c :: rest
            ∧ Forall run_shape (scan_inline fuel (pending ++ [c]) rest))
      as Hskip.
    { destruct (IH (pending ++ [c]) rest) as [-> ?]; [lia |].
      by rewrite <- app_assoc. }
    simpl. destruct (c =? BACKTICK)%N eqn:Hc; [| done].
    apply N.eqb_eq in Hc as ->.
    pose proof (span_app (λ x, negb (x =? BACKTICK)%N) rest) as Happ.
    pose proof (span_all (λ x, negb (x =? BACKTICK)%N) rest) as Hall.
    destruct (span (λ x, negb (x =? BACKTICK)%N) rest) as [code after] eqn:Hs.
    simpl in Happ, Hall.
    destruct code as [| c0 code]; [done |].
    destruct after as [| b after]; [done |].
    apply span_stop in Hs. apply negb_false_iff, N.eqb_eq in Hs as ->.
    destruct (IH [] after) as [Hren Hshape].
    { subst rest. rewrite length_app in Hlen. simpl in Hlen. lia. }
    split.
    + rewrite fmap_app, concat_app, render_plain_runs, fmap_cons, concat_cons.
      rewrite Hren. subst rest. unfold render_run. simpl.
      by rewrite <- !app_assoc.
    + apply Forall_app. split; [apply plain_runs_shape |].
      constructor; [| done]. split; [done |]. right. split; [done |].
      intros Hin. eapply Forall_forall in Hall; [| done].
      apply negb_true_iff, N.eqb_neq in Hall. done.
Qed.

(** X9: the runs of a paragraph give the line back when each code run is
    written between backticks again: no character is lost or moved.  No
    run is empty, and a code run holds no backtick. *)
Theorem inline_runs_round_trip line :
  concat (render_run <$> inline_runs line) = line
  ∧ Forall run_shape (inline_runs line).
Proof. by apply (scan_inline_spec (length line) [] line). Qed.

(** ** The line loop: what it keeps *)

(** X10: a conversion only adds blocks at the end of the document: the
    blocks that were there stay in place, in order, and the styles are not
    touched. *)
Theorem conversion_only_appends d lines d' :
  convert_lines d lines = Ok d' →
  styles d' = styles d ∧ body d `prefix_of` body d'.
Proof. apply convert_lines_extends. Qed.

(** A conversion into a document that already has a style and two
    blocks: a heading, a paragraph with inline code, a code block and a
    table come after them. *)
Lemma conversion_only_appends_witness :
  ∃ d',
    convert_lines sample_Document
      ([py "# New"; py "see `x`"; py "```"; py "y"; py "```"] ++ table_lines)
    = Ok d'
    ∧ body d'
      = [ Heading (py "Before") 1; Paragraph None [];
          Heading (py "New") 1;
          Paragraph None
            [ {| run_text := py "see "; run_font_name := None;
                 run_font_size := None; run_bold := None |};
              {| run_text := py "x";
                 run_font_name := Some (py "Courier New");
                 run_font_size := Some (Pt 10); run_bold := Some false |} ];
          Paragraph (Some (py "CodeBlock"))
            [ {| run_text := py "y"; run_font_name := None;
                 run_font_size := None; run_bold := None |} ];
          Table 2 [[py "A"; py "B"]; [py "1"; py "2"]] ]
    ∧ styles d' = styles sample_Document
    ∧ body sample_Document `prefix_of` body d'.
Proof.
  eexists. split; [vm_compute; reflexivity |]. split; [reflexivity |].
  apply (conversion_only_appends sample_Document
           ([py "# New"; py "see `x`"; py "```"; py "y"; py "```"]
            ++ table_lines)).
  vm_compute. reflexivity.
Defined.

(** ** Fences of any length *)

(** X11: a fence with any number of lines inside, at least one, none of
    which holds a character that XML forbids once stripped, adds one block
    at the end of the body when it closes: a paragraph of style CodeBlock
    with one run, the lines without their trailing whitespace joined by
    line feeds.  The rows of a table that was pending stay pending.  The
    document has the style CodeBlock, as it has after
    [ensure_mono_style]. *)
Theorem fenced_block_any_length d pre st tag ls rest :
  has_style (py "CodeBlock") d = true →
  run_lines (initial_state d) pre = Ok st → in_code st = false →
  LF ∉ tag → LF ∉ rest → ls ≠ [] →
  Forall (λ l, ¬ py "```" `prefix_of` l) ls →
  Forall (λ l, xml_compatible (rstrip l) = true) ls →
  run_lines (initial_state d)
            (pre ++ [py "```" ++ tag] ++ ls ++ [py "```" ++ rest])
  = Ok {| doc := {| styles := styles (doc st);
                    body := body (doc st)
                            ++ [Paragraph (Some (py "CodeBlock"))
                                  [{| run_text := join NL (rstrip <$> ls);
                                      run_font_name := None;
                                      run_font_size := None;
                                      run_bold := None |}]] |};
          in_code := false; code_lang := None; code_buffer := [];
          table_buffer := table_buffer st |}.
Proof.
  intros Hstyle Hpre Hin Htag Hrest Hne Hls Hxml.
  assert (code_buffer st = []) as Hbuf.
  { by eapply (run_lines_invariant pre (initial_state d)). }
  assert (has_style (py "CodeBlock") (doc st) = true) as Hstyled.
  { rewrite (has_style_extends _ d (doc st)); [exact Hstyle |].
    apply (run_lines_extends pre (initial_state d) st Hpre). }
  rewrite run_lines_app, Hpre. cbn [bind].
  by apply run_fence.
Qed.

Lemma fenced_block_any_length_witness :
  run_lines (initial_state styled_Document)
            ([py "| A |"] ++ [py "```" ++ py "py"]
             ++ [py "x = 1  "; []; py "# y"; py "z"] ++ [py "```" ++ []])
  = Ok {| doc := {| styles := styles styled_Document;
                    body := [] ++ [Paragraph (Some (py "CodeBlock"))
                                     [{| run_text :=
                                           join NL (rstrip <$> [py "x = 1  "; [];
                                                                py "# y"; py "z"]);
                                         run_font_name := None;
                                         run_font_size := None;
                                         run_bold := None |}]] |};
          in_code := false; code_lang := None; code_buffer := [];
          table_buffer := [[py "A"]] |}
  ∧ join NL (rstrip <$> [py "x = 1  "; []; py "# y"; py "z"])
    = py "x = 1" ++ NL ++ NL ++ py "# y" ++ NL ++ py "z".
Proof.
  split.
  - apply (fenced_block_any_length styled_Document [py "| A |"]
             {| doc := styled_Document; in_code := false; code_lang := None;
                code_buffer := []; table_buffer := [[py "A"]] |}
             (py "py") [py "x = 1  "; []; py "# y"; py "z"] []).
    + vm_compute. reflexivity.
    + vm_compute. reflexivity.
    + reflexivity.
    + decide_closed.
    + decide_closed.
    + discriminate.
    + repeat (constructor; [decide_closed |]). constructor.
    + repeat (constructor; [vm_compute; reflexivity |]). constructor.
  - vm_compute. reflexivity.
Defined.

(** X12: a fence that closes at once adds nothing: no empty code block is
    written, the document and the pending rows are as before. *)
Theorem empty_fence_adds_nothing d pre st tag rest :
  run_lines (initial_state d) pre = Ok st → in_code st = false →
  LF ∉ tag → LF ∉ rest →
  ∃ st',
    run_lines (initial_state d) (pre ++ [py "```" ++ tag; py "```" ++ rest])
    = Ok st'
    ∧ doc st' = doc st ∧ in_code st' = false ∧ code_buffer st' = []
    ∧ table_buffer st' = table_buffer st.
Proof.
  intros Hpre Hin Htag Hrest.
  assert (code_buffer st = []) as Hbuf.
  { by eapply (run_lines_invariant pre (initial_state d)). }
  rewrite run_lines_app, Hpre. cbn [bind run_lines].
  rewrite step_open_fence by done. cbn [bind].
  rewrite step_close_fence by done.
  unfold flush_code. cbn [code_buffer]. rewrite Hbuf. cbn [bind].
  eexists. split; [reflexivity |]. repeat split.
Qed.

Lemma empty_fence_adds_nothing_witness :
  ∃ st',
    run_lines (initial_state empty_Document)
              ([py "| A |"] ++ [py "```" ++ py "text"; py "```" ++ []])
    = Ok st'
    ∧ doc st' = empty_Document ∧ in_code st' = false ∧ code_buffer st' = []
    ∧ table_buffer st' = [[py "A"]].
Proof.
  apply (empty_fence_adds_nothing empty_Document [py "| A |"]
           {| doc := empty_Document; in_code := false; code_lang := None;
              code_buffer := []; table_buffer := [[py "A"]] |}
           (py "text") []).
  - vm_compute. reflexivity.
  - reflexivity.
  - decide_closed.
  - decide_closed.
Defined.

(** X13: when the input ends after a fence, closed or not, the code
    block is written, and the rows that were pending when the fence opened
    are written after it: the body ends with the code block followed by
    their table.  The lines of the fence and the cells hold no character
    that XML forbids, no pending row is longer than the first, and the
    document has the style CodeBlock. *)
Theorem fence_before_end d pre st tag ls rest (closed : bool) header
    body_rows :
  has_style (py "CodeBlock") d = true →
  run_lines (initial_state d) pre = Ok st → in_code st = false →
  table_buffer st = header :: body_rows →
  Forall (λ r, (length r ≤ length header)%nat) body_rows →
  Forall storable_row (header :: body_rows) →
  LF ∉ tag → LF ∉ rest → ls ≠ [] →
  Forall (λ l, ¬ py "```" `prefix_of` l) ls →
  Forall (λ l, xml_compatible (rstrip l) = true) ls →
  convert_lines d
    (pre ++ [py "```" ++ tag] ++ ls
     ++ (if closed then [py "```" ++ rest] else []))
  = Ok {| styles := styles (doc st);
          body := body (doc st)
                  ++ [ Paragraph (Some (py "CodeBlock"))
                         [{| run_text := join NL (rstrip <$> ls);
                             run_font_name := None; run_font_size := None;
                             run_bold := None |}];
                       Table (length header)
                         (padded (length header) <$> header :: body_rows) ]
       |}.
Proof.
  intros Hstyle Hpre Hin Htb Hfit Hrows Htag Hrest Hne Hls Hxml.
  assert (code_buffer st = []) as Hbuf.
  { by eapply (run_lines_invariant pre (initial_state d)). }
  assert (has_style (py "CodeBlock") (doc st) = true) as Hstyled.
  { rewrite (has_style_extends _ d (doc st)); [exact Hstyle |].
    apply (run_lines_extends pre (initial_state d) st Hpre). }
  assert (xml_compatible (join NL (rstrip <$> ls)) = true) as Hjoin
    by (apply xml_compatible_join, Forall_fmap; exact Hxml).
  unfold convert_lines. rewrite run_lines_app, Hpre. cbn [bind].
  destruct closed.
  - rewrite run_fence by done. cbn [bind].
    unfold flush_code. cbn [code_buffer bind].
    unfold flush_table. cbn [table_buffer doc]. rewrite Htb.
    rewrite add_table_fits by done. cbn [bind doc styles body].
    by rewrite <- app_assoc.
  - rewrite app_nil_r. cbn [app run_lines].
    rewrite step_open_fence by done. cbn [bind].
    rewrite run_lines_inside_fence by done. cbn [bind code_buffer].
    rewrite Hbuf. cbn [app].
    destruct (rstrip <$> ls) as [| b bs] eqn:Hb; [by destruct ls |].
    erewrite flush_code_lines; [| reflexivity | exact Hstyled | exact Hjoin].
    cbn [bind].
    unfold flush_table. cbn [table_buffer doc]. rewrite Htb.
    rewrite add_table_fits by done. cbn [bind doc styles body].
    by rewrite <- app_assoc.
Qed.

Lemma fence_before_end_witness :
  convert_lines styled_Document
    ([py "| A |"] ++ [py "```" ++ py "text"] ++ [py "x"] ++ [])
  = Ok {| styles := styles styled_Document;
          body := [ Paragraph (Some (py "CodeBlock"))
                      [{| run_text := py "x"; run_font_name := None;
                          run_font_size := None; run_bold := None |}];
                    Table 1 [[py "A"]] ] |}.
Proof.
  assert (Ok {| styles := styles styled_Document;
                body := [] ++ [ Paragraph (Some (py "CodeBlock"))
                                  [{| run_text := join NL (rstrip <$> [py "x"]);
                                      run_font_name := None;
                                      run_font_size := None;
                                      run_bold := None |}];
                                Table 1 (padded 1 <$> [py "A"] :: []) ] |}
          = Ok {| styles := styles styled_Document;
                  body := [ Paragraph (Some (py "CodeBlock"))
                              [{| run_text := py "x"; run_font_name := None;
                                  run_font_size := None; run_bold := None |}];
                            Table 1 [[py "A"]] ] |}) as <-
    by (vm_compute; reflexivity).
  apply (fence_before_end styled_Document [py "| A |"]
           {| doc := styled_Document; in_code := false; code_lang := None;
              code_buffer := []; table_buffer := [[py "A"]] |}
           (py "text") [py "x"] [] false [py "A"] []).
  - vm_compute. reflexivity.
  - vm_compute. reflexivity.
  - reflexivity.
  - reflexivity.
  - constructor.
  - repeat (constructor; [repeat (constructor; [vm_compute; reflexivity |]);
                          constructor |]). constructor.
  - decide_closed.
  - decide_closed.
  - discriminate.
  - repeat (constructor; [decide_closed |]). constructor.
  - repeat (constructor; [vm_compute; reflexivity |]). constructor.
Defined.

(** ** Rows and marks *)

Lemma rstrip_snoc_nonspace s c :
  isspace c = false → rstrip (s ++ [c]) = s ++ [c].
Proof.
  intros Hc. rewrite rstrip_app_nonblank; simpl; by rewrite Hc.
Qed.

Lemma join_chars sep cells c :
  c ∈ join sep cells → c ∈ sep ∨ ∃ cell, cell ∈ cells ∧ c ∈ cell.
Proof.
  induction cells as [| x cells IH]; simpl; [by intros ?%elem_of_nil |].
  destruct cells as [| y cells].
  - intros Hc. right. exists x. split; [by left | done].
  - intros Hc. apply elem_of_app in Hc as [Hc | Hc].
    { right. exists x. split; [by left | done]. }
    apply elem_of_app in Hc as [Hc | Hc]; [by left |].
    destruct (IH Hc) as [? | (cell & Hcell & ?)]; [by left |].
    right. exists cell. split; [by right | done].
Qed.

Lemma CODE_FENCE_match_other_start c s :
  c ≠ BACKTICK → CODE_FENCE_match (c :: s) = None.
Proof.
  intros Hc. apply N.eqb_neq in Hc.
  destruct s as [| b [| d s]]; simpl; by rewrite ?Hc.
Qed.

Lemma HEADING_match_other_start c s :
  c ≠ HASH → HEADING_match (c :: s) = None.
Proof.
  intros Hc. apply N.eqb_neq in Hc. unfold HEADING_match. simpl.
  rewrite Hc. by rewrite bool_decide_false by (simpl; lia).
Qed.

Lemma split_row_line cells :
  cells ≠ [] → Forall (λ c, PIPE ∉ c) cells →
  slice_1_m1 (strip <$> split PIPE (row_line cells)) = strip <$> cells.
Proof.
  intros Hne Hcells. unfold row_line, slice_1_m1.
  change ([PIPE] ++ join [PIPE] cells ++ [PIPE])
    with ([] ++ PIPE :: (join [PIPE] cells ++ [PIPE])).
  rewrite split_app_sep by apply not_elem_of_nil.
  rewrite split_snoc_sep, split_join by done.
  rewrite fmap_cons, fmap_app.
  change (strip <$> [[]]) with [strip []].
  by rewrite app_comm_cons, removelast_last.
Qed.

(** X14: outside a fence, a line of cells between pipes adds one row to
    the pending table, the cells without the whitespace around them, and
    nothing to the document; when every cell is an alignment cell, the line
    is dropped. *)
Theorem table_row_cells st cells :
  in_code st = false → cells ≠ [] →
  Forall (λ c, PIPE ∉ c) cells → Forall (λ c, LF ∉ c) cells →
  step st (row_line cells)
  = Ok (if forallb ALIGNMENT_match (strip <$> cells) then st
        else {| doc := doc st; in_code := in_code st;
                code_lang := code_lang st; code_buffer := code_buffer st;
                table_buffer := table_buffer st ++ [strip <$> cells] |}).
Proof.
  intros Hin Hne Hpipe Hlf.
  assert (rstrip (row_line cells) = row_line cells) as Hline.
  { unfold row_line. rewrite app_assoc. by apply rstrip_snoc_nonspace. }
  unfold step. rewrite Hline.
  assert (TABLE_ROW_match (row_line cells) = true) as Hrow.
  { unfold row_line, TABLE_ROW_match. simpl.
    assert (strip_final_lf (join [PIPE] cells ++ [PIPE])
            = join [PIPE] cells ++ [PIPE]) as ->.
    { unfold strip_final_lf. by rewrite last_snoc. }
    rewrite last_snoc, bool_decide_true by done. simpl.
    apply forallb_forall. intros c Hc%list_elem_of_In.
    apply negb_true_iff, N.eqb_neq. intros ->.
    apply elem_of_app in Hc as [Hc | Hc].
    - apply join_chars in Hc as [Hc | (cell & Hcell & Hc)].
      + apply list_elem_of_singleton in Hc. discriminate.
      + eapply Forall_forall in Hlf; [| done]. done.
    - apply list_elem_of_singleton in Hc. discriminate. }
  assert (CODE_FENCE_match (row_line cells) = None) as ->.
  { by apply (CODE_FENCE_match_other_start PIPE (join [PIPE] cells ++ [PIPE])). }
  assert (HEADING_match (row_line cells) = None) as Hhead.
  { by apply (HEADING_match_other_start PIPE (join [PIPE] cells ++ [PIPE])). }
  assert (strip (row_line cells) = row_line cells) as ->.
  { unfold strip. by rewrite Hline. }
  rewrite Hin, match_nonempty by done.
  rewrite Hhead, Hrow, split_row_line by done.
  by destruct (forallb _ _).
Qed.

Lemma table_row_cells_witness :
  step (initial_state empty_Document)
       (row_line [py " Name "; py "Role"; []])
  = Ok (if forallb ALIGNMENT_match (strip <$> [py " Name "; py "Role"; []])
        then initial_state empty_Document
        else {| doc := empty_Document; in_code := false; code_lang := None;
                code_buffer := [];
                table_buffer := [] ++ [strip <$> [py " Name "; py "Role"; []]]
             |}).
Proof.
  apply (table_row_cells (initial_state empty_Document)
           [py " Name "; py "Role"; []]).
  - reflexivity.
  - discriminate.
  - repeat (constructor; [decide_closed |]). constructor.
  - repeat (constructor; [decide_closed |]). constructor.
Defined.

Lemma rstrip_marks n rest :
  rstrip (replicate n HASH ++ rest) = replicate n HASH ++ rstrip rest.
Proof.
  induction n as [| n IH]; [done |]. simpl app.
  by rewrite rstrip_cons_nonspace, IH.
Qed.

Lemma span_marks_length n s :
  (n ≤ length (span (λ c, (c =? HASH)%N) (replicate n HASH ++ s)).1)%nat.
Proof.
  induction n as [| n IH]; simpl; [lia |].
  destruct (span _ _). simpl in *. lia.
Qed.

Lemma xml_compatible_marks n : xml_compatible (replicate n HASH) = true.
Proof. induction n as [| n IH]; [done |]. simpl. exact IH. Qed.

Lemma run_text_rendered r : run_text r ⊆ render_run r.
Proof.
  unfold render_run. destruct (run_font_name r); [| done].
  intros c Hc. apply elem_of_app. right. apply elem_of_app. by left.
Qed.

(** The runs of a line that can be stored can be stored. *)
Lemma inline_runs_compatible line :
  xml_compatible line = true →
  Forall (λ r, xml_compatible (run_text r) = true) (inline_runs line).
Proof.
  intros Hline.
  destruct (scan_inline_spec (length line) [] line) as [Hren _]; [done |].
  fold (inline_runs line) in Hren. simpl in Hren.
  apply Forall_forall. intros r Hr.
  eapply xml_compatible_subseteq; [| exact Hline].
  intros c Hc. rewrite <- Hren. apply list_elem_of_In, in_concat.
  exists (render_run r). split.
  - apply list_elem_of_In, list_elem_of_fmap. by exists r.
  - by apply list_elem_of_In, run_text_rendered.
Qed.

(** X15: seven marks or more do not make a heading: outside a fence the
    line, when it holds no character that XML forbids, becomes one ordinary
    paragraph at the end of the body, and the runs of that paragraph give
    the line back with its marks. *)
Theorem long_marks_are_text st st' n rest :
  in_code st = false → (6 < n)%nat → flush_table st = Ok st' →
  xml_compatible (rstrip rest) = true →
  step st (replicate n HASH ++ rest)
  = Ok {| doc := {| styles := styles (doc st');
                    body := body (doc st')
                            ++ [Paragraph None
                                  (inline_runs
                                     (replicate n HASH ++ rstrip rest))] |};
          in_code := false; code_lang := code_lang st;
          code_buffer := code_buffer st; table_buffer := [] |}
  ∧ concat (render_run <$> inline_runs (replicate n HASH ++ rstrip rest))
    = replicate n HASH ++ rstrip rest.
Proof.
  intros Hin Hn Hflush Hxml. split.
  - unfold step. rewrite rstrip_marks.
    set (line := replicate n HASH ++ rstrip rest).
    assert (∃ tl, line = HASH :: tl) as [tl Htl].
    { subst line. destruct n as [| n]; [lia |]. by eexists. }
    assert (CODE_FENCE_match line = None) as ->.
    { rewrite Htl. apply CODE_FENCE_match_hash. }
    assert (strip line = line) as ->.
    { unfold strip. subst line.
      rewrite <- rstrip_marks, rstrip_idempotent, rstrip_marks.
      by rewrite Htl. }
    rewrite Hin, match_nonempty by (by rewrite Htl).
    assert (HEADING_match line = None) as ->.
    { unfold HEADING_match. subst line.
      pose proof (span_marks_length n (rstrip rest)) as Hlen.
      destruct (span _ _) as [marks r]. simpl in Hlen.
      by rewrite bool_decide_false by lia. }
    assert (TABLE_ROW_match line = false) as -> by (by rewrite Htl).
    rewrite Hflush. cbn [bind]. unfold add_paragraph.
    rewrite add_runs_compatible.
    + cbn [bind].
      destruct (flush_table_state _ _ Hflush) as (Hic & Hlang & Hbuf & Htb).
      unfold with_doc, add_block.
      rewrite Hic, Hlang, Hbuf, Htb, Hin. reflexivity.
    + apply inline_runs_compatible. subst line.
      by rewrite xml_compatible_app, xml_compatible_marks, Hxml.
  - apply (scan_inline_spec (length (replicate n HASH ++ rstrip rest)) []).
    done.
Qed.

Lemma long_marks_are_text_witness :
  step (initial_state empty_Document) (replicate 7 HASH ++ py " Deep ")
  = Ok {| doc := {| styles := [];
                    body := [Paragraph None
                               [{| run_text := py "####### Deep";
                                   run_font_name := None;
                                   run_font_size := None;
                                   run_bold := None |}]] |};
          in_code := false; code_lang := None; code_buffer := [];
          table_buffer := [] |}.
Proof.
  destruct (long_marks_are_text (initial_state empty_Document)
              (initial_state empty_Document) 7 (py " Deep "))
    as (Hstep & _).
  - reflexivity.
  - lia.
  - reflexivity.
  - vm_compute. reflexivity.
  - rewrite Hstep. vm_compute. reflexivity.
Defined.

(** ** The converter as a script *)

Lemma paths_differ ROOT : MD_FILE ROOT ≠ DOCX_FILE ROOT.
Proof.
  unfold MD_FILE, DOCX_FILE, joinpath.
  destruct (bool_decide _); intros Heq.
  - apply app_inv_head in Heq. vm_compute in Heq. discriminate.
  - apply app_inv_head in Heq. vm_compute in Heq. discriminate.
Qed.


Section ScriptFacts.

Variable template_styles : list style.
Variable st_size : Document → Z.



(** X17: running the script again, on the files the first run left,
    ends the same way and leaves the same files. *)
Theorem rerun_changes_nothing cwd ROOT (w : world Document) :
  let '(r1, w1) := convert_md_to_docx template_styles st_size cwd ROOT w in
  let '(r2, w2) := convert_md_to_docx template_styles st_size cwd ROOT w1 in
  r2 = r1 ∧ files w2 = files w1.
Proof.
  pose proof (not_eq_sym (paths_differ ROOT)) as Hpaths.
  unfold convert_md_to_docx. cbn [Os.print files].
  destruct (files w !! MD_FILE ROOT) as [f |] eqn:Hmd.
  - destruct (let! text := read_text f in
              convert_lines (ensure_mono_style (new_Document template_styles))
                            (iter_lines text)) as [d |] eqn:Hconv.
    + cbn [Os.print write_file files].
      rewrite lookup_insert_ne, Hmd, Hconv by exact Hpaths.
      cbn [Os.print write_file files]. split; [reflexivity |].
      apply insert_insert_eq.
    + cbn [Os.print files]. rewrite Hmd, Hconv. split; reflexivity.
  - cbn [Os.print files]. rewrite Hmd. split; reflexivity.
Qed.

End ScriptFacts.


(** ** The code slide *)

(** X18: on a code slide the text is cut into one paragraph for each
    line, and the font (Courier New, 14 points) is set on the first
    paragraph only: the lines after the first keep the default font. *)
Theorem code_font_on_first_line_only prs title first others language :
  LF ∉ first → Forall (λ l, LF ∉ l) others →
  code_frame_of
    <$> last (slides (create_code_slide prs title (join NL (first :: others))
                                        language))
  = Some ({| par_text := first; par_level := None;
             par_font := {| font_name := Some (py "Courier New");
                            font_size := Some (Pt 14);
                            font_bold := None; font_color := None |};
             par_space_after := None |}
          :: (new_paragraph <$> others)).
Proof.
  intros Hfirst Hothers.
  unfold create_code_slide, add_slide. cbn [slides]. rewrite last_snoc.
  cbn [fmap option_fmap option_map code_frame_of box_frame].
  unfold set_text, NL.
  rewrite split_join by (done || by constructor).
  reflexivity.
Qed.

Lemma code_font_on_first_line_only_witness :
  code_frame_of
    <$> last (slides (create_code_slide empty_deck (py "Example")
                        (join NL (py "import os" :: [py "print(os.name)"]))
                        (py "python")))
  = Some ({| par_text := py "import os"; par_level := None;
             par_font := {| font_name := Some (py "Courier New");
                            font_size := Some (Pt 14);
                            font_bold := None; font_color := None |};
             par_space_after := None |}
          :: (new_paragraph <$> [py "print(os.name)"])).
Proof.
  apply (code_font_on_first_line_only empty_deck (py "Example")
           (py "import os") [py "print(os.name)"] (py "python")).
  - decide_closed.
  - repeat (constructor; [decide_closed |]). constructor.
Defined.

(** ** The agent samples *)

Import Samples.

(** X19: once the agent is created, it is deleted exactly once, as the
    last remote call, whether the run returns or raises.  The exception
    of a failed run reaches the caller, unless the deletion raises too. *)
Theorem agent_is_always_deleted environ svc endpoint model agent_id log :
  environ !! py "AZURE_AI_PROJECT_ENDPOINT" = Some endpoint →
  environ !! py "AZURE_AI_MODEL_DEPLOYMENT_NAME" = Some model →
  create_agent svc model (py "WeatherAgent") = Ok agent_id →
  let prompt := py "What's the weather like in Tokyo?" in
  existing_agent_main environ svc log
  = (match delete_agent svc agent_id, run svc agent_id prompt with
     | Raise e, _ => Raise e
     | Ok _, Raise e => Raise e
     | Ok _, Ok _ => Ok ()
     end,
     log
     ++ [ Printed (py "=== Azure AI Chat Client with Existing Agent ===" ++ NL);
          AgentCreated model (py "WeatherAgent");
          AgentRun agent_id prompt ]
     ++ match run svc agent_id prompt with
        | Ok text => [Printed (py "Result: " ++ text ++ NL ++ NL)]
        | Raise _ => []
        end
     ++ [AgentDeleted agent_id]).
Proof.
  intros Hendpoint Hmodel Hcreate prompt.
  unfold existing_agent_main, and_then, try_finally, print, print_end, emit,
    lift, environ_getitem.
  rewrite Hendpoint, Hmodel, Hcreate. fold prompt.
  destruct (run svc agent_id prompt) as [text | e];
    destruct (delete_agent svc agent_id) as [[] | e'];
    rewrite <- ?app_assoc; reflexivity.
Qed.

Lemma agent_is_always_deleted_witness :
  existing_agent_main sample_settings failing_service []
  = (Raise (Exn OtherException (py "run failed")),
     [ Printed (py "=== Azure AI Chat Client with Existing Agent ===" ++ NL);
       AgentCreated (py "gpt") (py "WeatherAgent");
       AgentRun (py "agent-1") (py "What's the weather like in Tokyo?");
       AgentDeleted (py "agent-1") ]).
Proof.
  apply (agent_is_always_deleted sample_settings failing_service
           (py "https://example.test") (py "gpt") (py "agent-1") []).
  - vm_compute. reflexivity.
  - vm_compute. reflexivity.
  - reflexivity.
Defined.

(** X20: when a setting is missing, the script ends with the [KeyError]
    of the first one that is missing, having printed its banner only; when
    the creation of the agent raises, it ends with that exception, after
    the banner and the creation call.  In no case is an agent run or
    deleted. *)
Theorem nothing_to_delete environ svc log :
  (environ !! py "AZURE_AI_PROJECT_ENDPOINT" = None →
   existing_agent_main environ svc log
   = (Raise (Exn KeyError (py "'AZURE_AI_PROJECT_ENDPOINT'")),
      log ++ [Printed (py "=== Azure AI Chat Client with Existing Agent ==="
                       ++ NL)]))
  ∧ (∀ endpoint,
       environ !! py "AZURE_AI_PROJECT_ENDPOINT" = Some endpoint →
       environ !! py "AZURE_AI_MODEL_DEPLOYMENT_NAME" = None →
       existing_agent_main environ svc log
       = (Raise (Exn KeyError (py "'AZURE_AI_MODEL_DEPLOYMENT_NAME'")),
          log ++ [Printed (py "=== Azure AI Chat Client with Existing Agent ==="
                           ++ NL)]))
  ∧ (∀ endpoint model e,
       environ !! py "AZURE_AI_PROJECT_ENDPOINT" = Some endpoint →
       environ !! py "AZURE_AI_MODEL_DEPLOYMENT_NAME" = Some model →
       create_agent svc model (py "WeatherAgent") = Raise e →
       existing_agent_main environ svc log
       = (Raise e,
          log ++ [Printed (py "=== Azure AI Chat Client with Existing Agent ==="
                           ++ NL);
                  AgentCreated model (py "WeatherAgent")])).
Proof.
  assert (py "'" ++ py "AZURE_AI_PROJECT_ENDPOINT" ++ py "'"
          = py "'AZURE_AI_PROJECT_ENDPOINT'") as Hquoted1
    by (vm_compute; reflexivity).
  assert (py "'" ++ py "AZURE_AI_MODEL_DEPLOYMENT_NAME" ++ py "'"
          = py "'AZURE_AI_MODEL_DEPLOYMENT_NAME'") as Hquoted2
    by (vm_compute; reflexivity).
  unfold existing_agent_main, and_then, try_finally, print, print_end, emit,
    lift, environ_getitem.
  split; [| split].
  - intros ->. rewrite Hquoted1. reflexivity.
  - intros endpoint -> ->. rewrite Hquoted2. reflexivity.
  - intros endpoint model e -> -> ->. rewrite <- app_assoc. reflexivity.
Qed.

(** A service that refuses to create the agent. *)
Lemma nothing_to_delete_witness :
  existing_agent_main sample_settings
    {| create_agent := λ _ _, Raise (Exn OtherException (py "quota exceeded"));
       run := λ _ _, Ok [];
       run_stream := λ _, ([], Ok ());
       delete_agent := λ _, Ok () |} []
  = (Raise (Exn OtherException (py "quota exceeded")),
     [] ++ [Printed (py "=== Azure AI Chat Client with Existing Agent ==="
                     ++ NL);
            AgentCreated (py "gpt") (py "WeatherAgent")]).
Proof.
  destruct (nothing_to_delete sample_settings
              {| create_agent :=
                   λ _ _, Raise (Exn OtherException (py "quota exceeded"));
                 run := λ _ _, Ok [];
                 run_stream := λ _, ([], Ok ());
                 delete_agent := λ _, Ok () |} []) as (_ & _ & Hcreate).
  apply (Hcreate (py "https://example.test") (py "gpt")).
  - vm_compute. reflexivity.
  - vm_compute. reflexivity.
  - reflexivity.
Defined.

Lemma console_app a b : console (a ++ b) = console a ++ console b.
Proof.
  induction a as [| ev a IH]; [done |]. destruct ev; simpl; [| done..].
  by rewrite IH, app_assoc.
Qed.

Lemma print_chunks_console chunks : ∀ log,
  ∃ events,
    print_chunks chunks log = (Ok (), log ++ events)
    ∧ console events = concat (default [] <$> chunks)
    ∧ length events ≤ length chunks.
Proof.
  induction chunks as [| chunk chunks IH]; intros log.
  - exists []. unfold print_chunks, ret. by rewrite app_nil_r.
  - simpl. unfold and_then, ret.
    destruct chunk as [[| c text] |]; simpl.
    + destruct (IH log) as (events & -> & Hcon & Hlen).
      exists events. repeat split; [done | lia].
    + unfold print_end, emit.
      destruct (IH (log ++ [Printed (c :: text ++ [])]))
        as (events & -> & Hcon & Hlen).
      exists (Printed (c :: text ++ []) :: events).
      rewrite <- app_assoc. split; [done |]. split; [| simpl; lia].
      simpl. by rewrite app_nil_r, Hcon.
    + destruct (IH log) as (events & -> & Hcon & Hlen).
      exists events. repeat split; [done | lia].
Qed.

(** X21: the streaming example puts every text of the stream on the
    console, in order and without anything between them: leaving out the
    updates that have no text loses nothing.  Two line feeds follow when
    the stream ends well; when it raises, the exception goes on. *)
Theorem streaming_prints_every_text svc chunks ending log :
  run_stream svc (py "What's the weather like in Mexico City?")
  = (chunks, ending) →
  let '(r, log') := streaming_example svc log in
  r = ending
  ∧ console log'
    = console log
      ++ py "=== Streaming Response Example ===" ++ NL
      ++ py "User: " ++ py "What's the weather like in Mexico City?" ++ NL
      ++ py "Agent: "
      ++ concat (default [] <$> chunks)
      ++ match ending with
         | Ok _ => NL ++ NL
         | Raise _ => []
         end.
Proof.
  intros Hstream.
  unfold streaming_example, and_then, print, print_end, emit, lift.
  rewrite Hstream.
  destruct (print_chunks_console chunks
              ((((log ++ [Printed (py "=== Streaming Response Example ===" ++ NL)])
                 ++ [Printed ((py "User: "
                               ++ py "What's the weather like in Mexico City?")
                              ++ NL)])
                ++ [Printed (py "Agent: " ++ [])])
               ++ [AgentStreamed (py "What's the weather like in Mexico City?")]))
    as (events & -> & Hcon & _).
  destruct ending as [[] | e]; (split; [reflexivity |]);
    rewrite !console_app; simpl; rewrite Hcon, !app_nil_r, <- !app_assoc;
    reflexivity.
Qed.

Lemma streaming_prints_every_text_witness :
  let '(r, log') := streaming_example failing_service [] in
  r = Ok ()
  ∧ console log'
    = console []
      ++ py "=== Streaming Response Example ===" ++ NL
      ++ py "User: " ++ py "What's the weather like in Mexico City?" ++ NL
      ++ py "Agent: "
      ++ concat (default [] <$> [Some (py "Sun"); None; Some []; Some (py "ny")])
      ++ (NL ++ NL).
Proof.
  apply (streaming_prints_every_text failing_service
           [Some (py "Sun"); None; Some []; Some (py "ny")] (Ok ()) []).
  reflexivity.
Defined.
